(** * unsat: dataset indexing, patch extraction and border masks

    A shallow embedding of [src/unsat/data.py]: the [DataSelection] value
    type, [XRayDataset] (index resolution, patch extraction, border mask) and
    the train/validation/test split of [XRayDataModule.prepare_data].

    Python integers are [Z]; [divmod] is floor division, which is what
    [Z.div] and [Z.modulo] compute.  Exceptions are an explicit error type.
    Arrays (numpy arrays, torch tensors, HDF5 datasets) are a shape together
    with an element function. *)

From Stdlib Require Import ZArith QArith Qround Lia.
From stdpp Require Import base list strings gmap.

Local Open Scope Z_scope.

(** ** Python exceptions and the error monad *)

Inductive exn : Set :=
  | IndexError | KeyError | ZeroDivisionError | ValueError | RuntimeError | TypeError.

Inductive result (A : Type) : Type :=
  | Ok (a : A)
  | Raise (e : exn).
Arguments Ok {A} a.
Arguments Raise {A} e.

#[global] Instance result_ret : MRet result := fun A a => Ok a.
#[global] Instance result_bind : MBind result := fun A B f r =>
  match r with Ok a => f a | Raise e => Raise e end.

Definition is_ok {A} (r : result A) : bool :=
  match r with Ok _ => true | Raise _ => false end.

(** ** Python built-ins *)

(** [divmod(a, b)] on integers. *)
Definition divmod (a b : Z) : result (Z * Z) :=
  if b =? 0 then Raise ZeroDivisionError else Ok (a / b, a mod b).

(** Position addressed by the integer index [k] on an axis of length [n]:
    negative indices count from the end, anything else out of
    [-n, n) is an [IndexError].  Python lists and tuples, numpy arrays and
    h5py datasets all resolve an integer index this way. *)
Definition norm_index (n k : Z) : result Z :=
  if (0 <=? k) && (k <? n) then Ok k
  else if (- n <=? k) && (k <? 0) then Ok (k + n)
  else Raise IndexError.

(** [l[k]] for a list or tuple [l]. *)
Definition getitem {A} (l : list A) (k : Z) : result A :=
  i ← norm_index (Z.of_nat (length l)) k;
  match l !! Z.to_nat i with
  | Some x => Ok x
  | None => Raise IndexError
  end.

(** [range(n)]. *)
Definition range (n : Z) : list Z := seqZ 0 n.

(** [[f(i) for i in range(n)]] where [f] may raise. *)
Definition comprehension {A} (f : Z → result A) (n : Z) : result (list A) :=
  mapM f (range n).

(** Bounds of [slice(start, stop)] on an axis of length [n], as
    [slice.indices] computes them (step 1): a negative bound counts from the
    end, and both are clipped to [0, n]. *)
Definition slice_bound (n b : Z) : Z :=
  if b <? 0 then Z.max (b + n) 0 else Z.min b n.

(** Does position [k] of an axis of length [n] belong to [slice(start, stop)]? *)
Definition in_slice (n : Z) (s : Z * Z) (k : Z) : bool :=
  (slice_bound n s.1 <=? k) && (k <? slice_bound n s.2).

Definition slice_len (n : Z) (s : Z * Z) : Z :=
  Z.max 0 (slice_bound n s.2 - slice_bound n s.1).

(** ** Arrays *)

Record ndarray (A : Type) : Type := NdArray {
  shape : list Z;
  item : list Z → A
}.
Arguments NdArray {A} shape item.
Arguments shape {A} _.
Arguments item {A} _ _.

(** A multi-index lies inside a shape. *)
Fixpoint in_bounds (sh : list Z) (idx : list Z) : bool :=
  match sh, idx with
  | [], [] => true
  | n :: sh', k :: idx' => (0 <=? k) && (k <? n) && in_bounds sh' idx'
  | _, _ => false
  end.

(** [a[k]]: integer index along the leading axis. *)
Definition array_index {A} (a : ndarray A) (k : Z) : result (ndarray A) :=
  match shape a with
  | [] => Raise IndexError
  | n :: sh =>
      i ← norm_index n k;
      Ok (NdArray sh (fun idx => item a (i :: idx)))
  end.

(** Shape of [a[slices]]: sliced axes shrink, trailing axes are kept. *)
Fixpoint sliced_shape (sh : list Z) (sl : list (Z * Z)) : list Z :=
  match sh, sl with
  | n :: sh', s :: sl' => slice_len n s :: sliced_shape sh' sl'
  | _, _ => sh
  end.

(** Source position of the element at [idx] of [a[slices]]. *)
Fixpoint sliced_pos (sh : list Z) (sl : list (Z * Z)) (idx : list Z) : list Z :=
  match sh, sl, idx with
  | n :: sh', s :: sl', k :: idx' => (slice_bound n s.1 + k) :: sliced_pos sh' sl' idx'
  | _, _, _ => idx
  end.

(** [a[slices]] for a tuple of slices (numpy basic slicing). *)
Definition array_slice {A} (a : ndarray A) (sl : list (Z * Z)) : result (ndarray A) :=
  if (length (shape a) <? length sl)%nat then Raise IndexError
  else Ok (NdArray (sliced_shape (shape a) sl)
                   (fun idx => item a (sliced_pos (shape a) sl idx))).

(** Is the multi-index addressed by the tuple of slices? Axes beyond the
    tuple are taken whole. *)
Fixpoint in_slices (sh : list Z) (sl : list (Z * Z)) (idx : list Z) : bool :=
  match sl with
  | [] => true
  | s :: sl' =>
      match sh, idx with
      | n :: sh', k :: idx' => in_slice n s k && in_slices sh' sl' idx'
      | _, _ => false
      end
  end.

(** [a[slices] = v]. *)
Definition array_fill_slice {A} (a : ndarray A) (sl : list (Z * Z)) (v : A)
  : result (ndarray A) :=
  if (length (shape a) <? length sl)%nat then Raise IndexError
  else Ok (NdArray (shape a)
                   (fun idx => if in_slices (shape a) sl idx then v else item a idx)).

(** [torch.full(size, v)]. *)
Definition full {A} (size : list Z) (v : A) : result (ndarray A) :=
  if forallb (fun n => 0 <=? n) size then Ok (NdArray size (fun _ => v))
  else Raise RuntimeError.

(** [t.unsqueeze(0)]. *)
Definition unsqueeze0 {A} (a : ndarray A) : ndarray A :=
  NdArray (1 :: shape a) (fun idx => item a (tail idx)).

(** ** DataSelection *)

Module DataSelection.

Record t : Type := Make {
  sample_list : list string;
  height_range : Z * Z;
  day_range : Z * Z;
  dimension : Z
}.

Definition num_samples (self : t) : Z := Z.of_nat (length (sample_list self)).

Definition num_heights (self : t) : Z := (height_range self).2 - (height_range self).1.

Definition num_days (self : t) : Z := (day_range self).2 - (day_range self).1.

Definition points_per_sample (self : t) : Z :=
  if dimension self =? 2 then num_heights self * num_days self
  else num_days self.

Definition num_points (self : t) : Z := num_samples self * points_per_sample self.

End DataSelection.

(** ** The HDF5 backing store

    A file is the table of its objects under their full path names, in the
    order [visit] walks them.  A group lists its direct members; a member
    that is a dataset carries the array.  Stored elements are integers: the
    casts of [__getitem__] to [float32] and [long] do not touch shapes or
    positions and are left out. *)

Inductive h5link : Type :=
  | LinkDataset (a : ndarray Z)
  | LinkGroup.

Inductive h5object : Type :=
  | H5Group (members : list (string * h5link))
  | H5Dataset (a : ndarray Z).

Definition h5file : Type := list (string * h5object).

Fixpoint assoc {A} (k : string) (l : list (string * A)) : option A :=
  match l with
  | [] => None
  | (k', v) :: l' => if String.eqb k k' then Some v else assoc k l'
  end.

(** [hdf5_file[name]]. *)
Definition h5_get (f : h5file) (name : string) : result h5object :=
  match assoc name f with
  | Some o => Ok o
  | None => Raise KeyError
  end.

(** [group[name]] where a dataset is expected. *)
Definition h5_dataset (o : h5object) (name : string) : result (ndarray Z) :=
  match o with
  | H5Group members =>
      match assoc name members with
      | Some (LinkDataset a) => Ok a
      | Some LinkGroup => Raise TypeError
      | None => Raise KeyError
      end
  | H5Dataset _ => Raise TypeError
  end.

Definition is_dataset (l : h5link) : bool :=
  match l with LinkDataset _ => true | LinkGroup => false end.

(** [get_all_group_paths]: the groups that have a dataset among their children. *)
Definition get_all_group_paths (hdf5_file : h5file) : list string :=
  omap (fun entry : string * h5object =>
          match entry.2 with
          | H5Group members =>
              if existsb (fun m : string * h5link => is_dataset m.2) members
              then Some entry.1 else None
          | H5Dataset _ => None
          end) hdf5_file.

(** ** numpy's global random generator

    The generator is a stream of raw draws and a cursor.
    [np.random.randint(low, high)] returns an integer of the half-open
    range [low, high) and raises [ValueError] when [low >= high].  Only which
    values can come out is modelled, not their distribution. *)

Record rng : Type := Rng { stream : nat → Z; cursor : nat }.

(** Computations that read and advance some state and may raise. *)
Definition py (S A : Type) : Type := S → result A * S.

#[global] Instance py_ret {S} : MRet (py S) := fun A a s => (Ok a, s).
#[global] Instance py_bind {S} : MBind (py S) := fun A B f m s =>
  match m s with
  | (Ok a, s') => f a s'
  | (Raise e, s') => (Raise e, s')
  end.

Definition lift {S A} (r : result A) : py S A := fun s => (r, s).

Definition randint (low high : Z) : py rng Z := fun g =>
  if high <=? low then (Raise ValueError, g)
  else (Ok (low + stream g (cursor g) mod (high - low)),
        Rng (stream g) (S (cursor g))).

(** ** XRayDataset *)

Module XRayDataset.

Record t : Type := Make {
  name : string;
  hdf5_path : string;
  hdf5_file : option h5file;
  selection : DataSelection.t;
  patch_size : option (list Z);
  patch_border : option (list Z);
  shuffle : bool;
  dimension : Z
}.

Definition __init__ (hdf5_path : string) (data_selection : DataSelection.t)
    (name : string) (patch_size patch_border : option (list Z))
    (dimension : Z) (shuffle : bool) : t :=
  {| name := name;
     hdf5_path := hdf5_path;
     hdf5_file := None;
     selection := data_selection;
     patch_size := patch_size;
     patch_border := patch_border;
     shuffle := true;
     dimension := dimension |}.

Definition __len__ (self : t) : Z := DataSelection.num_points (selection self).

(** One round of the loop of [compute_border_mask]: the slice of axis [i]. *)
Definition border_slice (patch_size patch_border init_shape patch_starts : list Z)
    (i : Z) : result (Z * Z) :=
  border ← getitem patch_border i;
  pstart ← getitem patch_starts i;
  let start := border in
  let start := if border >? pstart then start - pstart else start in
  let end_ := border in
  extent ← getitem init_shape i;
  psize ← getitem patch_size i;
  let end_ := if border >? extent - (pstart + psize)
              then end_ - (extent - (pstart + psize)) else end_ in
  let end_ := psize - end_ in
  Ok (start, end_).

Definition compute_border_mask (self : t) (init_shape patch_starts : list Z)
  : result (ndarray bool) :=
  match patch_size self with
  | None | Some [] => full init_shape true
  | Some ((_ :: _) as patch_size) =>
      match patch_border self with
      | None | Some [] => full patch_size true
      | Some ((_ :: _) as patch_border) =>
          mask ← full patch_size false;
          slices ← comprehension
            (border_slice patch_size patch_border init_shape patch_starts)
            (dimension self);
          array_fill_slice mask slices true
      end
  end.

(** Lines 100-106 of [__getitem__]: the sample, day and height a flat index
    stands for. *)
Definition resolve_index (sel : DataSelection.t) (idx : Z) : result (string * Z * Z) :=
  '(sample_idx, data_idx) ← divmod idx (DataSelection.points_per_sample sel);
  sample_name ← getitem (DataSelection.sample_list sel) sample_idx;
  '(day_idx, height_idx) ← divmod data_idx (DataSelection.num_heights sel);
  let day_idx := day_idx + (DataSelection.day_range sel).1 in
  let height_idx := height_idx + (DataSelection.height_range sel).1 in
  Ok (sample_name, day_idx, height_idx).

(** Lines 108-112: the arrays of one point. *)
Definition load (self : t) (file : h5file) (point : string * Z * Z)
  : result (ndarray Z * ndarray Z) :=
  let '(sample_name, day_idx, height_idx) := point in
  data ← (g ← h5_get file sample_name; d ← h5_dataset g "data"; array_index d day_idx);
  labels ← (g ← h5_get file sample_name; d ← h5_dataset g "labels"; array_index d day_idx);
  if dimension self =? 2 then
    data ← array_index data height_idx;
    labels ← array_index labels height_idx;
    Ok (data, labels)
  else Ok (data, labels).

(** Line 121: one random start per axis. *)
Definition random_patch_starts (self : t) (max_starts : list Z) : py rng (list Z) :=
  mapM (fun i => m ← lift (getitem max_starts i); randint 0 m) (range (dimension self)).

(** Line 123: the centred patch. *)
Definition center_patch_starts (self : t) (max_starts : list Z) : py rng (list Z) :=
  lift (comprehension (fun i => m ← getitem max_starts i; Ok (m / 2)) (dimension self)).

(** Line 119. *)
Definition patch_max_starts (self : t) (init_shape patch_size : list Z)
  : result (list Z) :=
  comprehension
    (fun i => n ← getitem init_shape i; p ← getitem patch_size i; Ok (n - p))
    (dimension self).

(** Lines 119-123: where the patch starts on each axis. *)
Definition choose_patch_starts (self : t) (init_shape patch_size : list Z)
  : py rng (list Z) :=
  max_starts ← lift (patch_max_starts self init_shape patch_size);
  if shuffle self then random_patch_starts self max_starts
  else center_patch_starts self max_starts.

(** Lines 114-139, once the arrays of the point are loaded. *)
Definition finish (self : t) (data labels : ndarray Z)
  : py rng (ndarray Z * ndarray Z * ndarray bool) :=
  let init_shape := shape data in
  '(data, labels, patch_starts) ←
    match patch_size self with
    | Some patch_size =>
        patch_starts ← choose_patch_starts self init_shape patch_size;
        let slices := zip_with (fun start size => (start, start + size))
                               patch_starts patch_size in
        data ← lift (array_slice data slices);
        labels ← lift (array_slice labels slices);
        mret (data, labels, patch_starts)
    | None => mret (data, labels, [])
    end;
  mask ← lift (compute_border_mask self init_shape patch_starts);
  let data := unsqueeze0 data in
  mret (data, labels, mask).

(** Lines 97-98: the file is opened on first use; [disk] is what the file
    at [hdf5_path] holds. *)
Definition open_file (disk : h5file) (self : t) : t :=
  match hdf5_file self with
  | Some _ => self
  | None =>
      Make (name self) (hdf5_path self) (Some disk) (selection self)
           (patch_size self) (patch_border self) (shuffle self) (dimension self)
  end.

(** [__getitem__]: the state is the object itself (its file handle) and
    numpy's random generator. *)
Definition __getitem__ (disk : h5file) (idx : Z)
  : py (t * rng) (ndarray Z * ndarray Z * ndarray bool) := fun '(self, g) =>
  let self := open_file disk self in
  let file := default disk (hdf5_file self) in
  match (point ← resolve_index (selection self) idx; load self file point) with
  | Raise e => (Raise e, (self, g))
  | Ok (data, labels) =>
      let '(r, g') := finish self data labels g in (r, (self, g'))
  end.

End XRayDataset.

(** ** torch.utils.data: Subset and random_split *)

(** [l[start:stop]] for a Python list. *)
Definition list_slice {A} (l : list A) (start stop : Z) : list A :=
  let n := Z.of_nat (length l) in
  take (Z.to_nat (slice_len n (start, stop))) (drop (Z.to_nat (slice_bound n start)) l).

Module Subset.

Record t : Type := Make {
  dataset : XRayDataset.t;
  indices : list Z
}.

Definition __len__ (self : t) : Z := Z.of_nat (length (indices self)).

(** [self.dataset[self.indices[idx]]], up to the resolution of the index. *)
Definition resolve_index (self : t) (idx : Z) : result (string * Z * Z) :=
  j ← getitem (indices self) idx;
  XRayDataset.resolve_index (XRayDataset.selection (dataset self)) j.

(** [self.dataset[self.indices[idx]]]; the state is the dataset shared by
    the subsets and the random generator. *)
Definition __getitem__ (disk : h5file) (self : t) (idx : Z)
  : py (XRayDataset.t * rng) (ndarray Z * ndarray Z * ndarray bool) :=
  j ← lift (getitem (indices self) idx);
  XRayDataset.__getitem__ disk j.

End Subset.

(** What the split takes from the runtime.  [randperm seed n] is
    [torch.randperm(n, generator=torch.Generator().manual_seed(seed)).tolist()],
    a function of the seed and of [n].  [float_mul x n] is Python's product of
    a float by an integer: a float is the rational it stands for, and the
    rounding of the product is left to this function. *)
Record runtime : Type := Runtime {
  randperm : Z → Z → list Z;
  float_mul : Q → Z → Q
}.

(** [int(x)] for a float: truncation towards zero. *)
Definition int_of_float (x : Q) : Z := Z.quot (Qnum x) (Zpos (Qden x)).

(** [random_split(dataset, [n1, n2], generator)].  When the lengths sum
    to 1 they are read as fractions, which must lie in [0, 1] and then give
    the same two lengths. *)
Definition random_split (rt : runtime) (dataset : XRayDataset.t) (lengths : Z * Z)
    (seed : Z)
  : result (Subset.t * Subset.t) :=
  let '(n1, n2) := lengths in
  if (n1 + n2 =? 1) && negb ((0 <=? n1) && (n1 <=? 1) && (0 <=? n2) && (n2 <=? 1))
  then Raise ValueError
  else if negb (n1 + n2 =? XRayDataset.__len__ dataset) then Raise ValueError
  else
    let indices := randperm rt seed (n1 + n2) in
    Ok (Subset.Make dataset (list_slice indices (n1 - n1) n1),
        Subset.Make dataset (list_slice indices (n1 + n2 - n2) (n1 + n2))).

Inductive int_or_tuple : Type :=
  | AsInt (n : Z)
  | AsTuple (l : list Z).

(** [(n,) * dimension if isinstance(n, int) else n]. *)
Definition as_tuple (dimension : Z) (x : option int_or_tuple) : option (list Z) :=
  match x with
  | Some (AsInt n) => Some (replicate (Z.to_nat dimension) n)
  | Some (AsTuple l) => Some l
  | None => None
  end.

Module XRayDataModule.

Record kwargs : Type := Kwargs {
  kw_hdf5_path : string;
  kw_patch_size : option (list Z);
  kw_patch_border : option (list Z);
  kw_dimension : Z
}.

Record t : Type := Make {
  hdf5_path : string;
  train_samples : list string;
  height_range : Z * Z;
  train_day_range : Z * Z;
  validation_split : Q;
  seed : Z;
  batch_size : Z;
  num_workers : Z;
  dimension : Z;
  dataset_kwargs : kwargs
}.

(** The views [prepare_data] builds; [test_overlap] is the
    [ConcatDataset] of its two parts. *)
Record datasets : Type := Datasets {
  train : Subset.t;
  val : Subset.t;
  test_strict : XRayDataset.t;
  test_overlap : list XRayDataset.t
}.

Definition __init__ (hdf5_path : string) (train_samples : list string)
    (height_range train_day_range : Z * Z) (validation_split : Q)
    (batch_size seed num_workers dimension : Z)
    (patch_size patch_border : option int_or_tuple) : t :=
  let patch_size := as_tuple dimension patch_size in
  let patch_border := as_tuple dimension patch_border in
  {| hdf5_path := hdf5_path;
     train_samples := train_samples;
     height_range := height_range;
     train_day_range := train_day_range;
     validation_split := validation_split;
     seed := seed;
     batch_size := batch_size;
     num_workers := num_workers;
     dimension := dimension;
     dataset_kwargs := Kwargs hdf5_path patch_size patch_border dimension |}.

(** [XRayDataset(data_selection=..., name=..., **self.dataset_kwargs)]. *)
Definition new_dataset (self : t) (sel : DataSelection.t) (name : string)
  : XRayDataset.t :=
  let kw := dataset_kwargs self in
  XRayDataset.__init__ (kw_hdf5_path kw) sel name (kw_patch_size kw)
    (kw_patch_border kw) (kw_dimension kw) true.

(** Lines 243-262 of [prepare_data]: the train+val dataset and its
    random split. *)
Definition split_train_val (rt : runtime) (self : t) : result (Subset.t * Subset.t) :=
  let train_val_selection :=
    DataSelection.Make (train_samples self) (height_range self)
                       (train_day_range self) (dimension self) in
  let train_val_dataset := new_dataset self train_val_selection "train_val" in
  let num_val_samples :=
    int_of_float (float_mul rt (validation_split self)
                            (XRayDataset.__len__ train_val_dataset)) in
  let num_train_samples := XRayDataset.__len__ train_val_dataset - num_val_samples in
  random_split rt train_val_dataset (num_train_samples, num_val_samples) (seed self).

(** [prepare_data] up to the [datasets] dictionary; [disk] is what the
    file at [hdf5_path] holds.  The loaders wrapped around the views are
    torch objects and stay outside. *)
Definition prepare_data (rt : runtime) (disk : h5file) (self : t) : result datasets :=
  '(train, val) ← split_train_val rt self;
  let all_samples := get_all_group_paths disk in
  let test_samples : list string :=
    elements ((list_to_set all_samples : gset string)
                ∖ list_to_set (train_samples self)) in
  first ← getitem all_samples 0;
  total_days ← (g ← h5_get disk first; d ← h5_dataset g "data"; getitem (shape d) 0);
  let test_day_range := ((train_day_range self).2, total_days) in
  let strict_test_selection :=
    DataSelection.Make test_samples (height_range self) test_day_range
                       (dimension self) in
  let overlap_test_selection_same_days :=
    DataSelection.Make test_samples (height_range self) (train_day_range self)
                       (dimension self) in
  let overlap_test_selection_same_samples :=
    DataSelection.Make (train_samples self) (height_range self) test_day_range
                       (dimension self) in
  Ok {| train := train;
        val := val;
        test_strict := new_dataset self strict_test_selection "test_strict";
        test_overlap :=
          [ new_dataset self overlap_test_selection_same_days "test_overlap_same_days";
            new_dataset self overlap_test_selection_same_samples
                        "test_overlap_same_samples" ] |}.

End XRayDataModule.


(** ** Notions used by the statements *)

(** The datasets the class can produce: built by [__init__], then passed
    through any number of [__getitem__] calls ([__len__] and
    [compute_border_mask] only read the object). *)
Inductive constructed : XRayDataset.t → Prop :=
  | constructed_init hdf5_path data_selection name patch_size patch_border
      dimension shuffle :
      constructed (XRayDataset.__init__ hdf5_path data_selection name patch_size
                     patch_border dimension shuffle)
  | constructed_getitem disk idx self g :
      constructed self →
      constructed (XRayDataset.__getitem__ disk idx (self, g)).2.1.

(** The excluded margins of one axis as the description of the mask gives
    them: the border, reduced by the patch start when the border exceeds it,
    and, at the far side, reduced by the room left behind the patch when the
    border exceeds that room. *)
Definition margin_start (border pstart : Z) : Z :=
  if border >? pstart then border - pstart else border.

Definition margin_end (border pstart size extent : Z) : Z :=
  if border >? extent - (pstart + size)
  then border - (extent - (pstart + size)) else border.

(** The (sample, day) pairs a view reaches through some index. *)
Definition dataset_reaches (d : XRayDataset.t) (p : string * Z) : Prop :=
  ∃ idx h, XRayDataset.resolve_index (XRayDataset.selection d) idx = Ok (p.1, p.2, h).

Definition subset_reaches (s : Subset.t) (p : string * Z) : Prop :=
  ∃ idx h, Subset.resolve_index s idx = Ok (p.1, p.2, h).

(** What [__getitem__] needs from one sample of the file: a group with
    [data] and [labels] of the same shape, whose day axis covers the day
    range and, in two dimensions, whose height axis covers the height range;
    [sh] is the shape of one point. *)
Definition sample_stored (self : XRayDataset.t) (file : h5file) (sh : list Z)
    (sample_name : string) : Prop :=
  let sel := XRayDataset.selection self in
  ∃ members data labels days,
    assoc sample_name file = Some (H5Group members) ∧
    assoc "data" members = Some (LinkDataset data) ∧
    assoc "labels" members = Some (LinkDataset labels) ∧
    shape labels = shape data ∧
    0 ≤ (DataSelection.day_range sel).1 ∧ (DataSelection.day_range sel).2 ≤ days ∧
    if XRayDataset.dimension self =? 2
    then ∃ heights, shape data = days :: heights :: sh ∧
           0 ≤ (DataSelection.height_range sel).1 ∧
           (DataSelection.height_range sel).2 ≤ heights
    else shape data = days :: sh.

(** A patch configuration that fits points of shape [sh]: every patch axis
    is shorter than the axis it is cut from, and a border, when there is
    one, has an entry per axis. *)
Definition patch_fits (self : XRayDataset.t) (sh : list Z) : Prop :=
  Forall (λ n, 0 ≤ n) sh ∧
  match XRayDataset.patch_size self with
  | None => True
  | Some ps =>
      let d := Z.to_nat (XRayDataset.dimension self) in
      (d ≤ length ps)%nat ∧ (d ≤ length sh)%nat ∧ Forall (λ p, 0 ≤ p) ps ∧
      (∀ (i : nat) n p, (i < d)%nat → sh !! i = Some n → ps !! i = Some p → p < n) ∧
      match XRayDataset.patch_border self with
      | None => True
      | Some pb => pb = [] ∨ (d ≤ length pb)%nat
      end
  end.


(** ** Example data *)

Definition zeros (sh : list Z) : ndarray Z := NdArray sh (λ _, 0).

Definition sample_group (sh : list Z) : h5object :=
  H5Group [("data", LinkDataset (zeros sh)); ("labels", LinkDataset (zeros sh))].

(** Two samples of 2 days, 2 heights and 20 x 20 pixels. *)
Definition disk_ab : h5file :=
  [("a", sample_group [2; 2; 20; 20]); ("b", sample_group [2; 2; 20; 20])].

Definition rng0 : rng := Rng (λ n, Z.of_nat n) 0.

(** One axis of extent 20, patches of 10 with a border of 3. *)
Definition one_axis_dataset : XRayDataset.t :=
  XRayDataset.__init__ "data.h5" (DataSelection.Make ["a"] (0, 1) (0, 1) 1) "train"
    (Some [10]) (Some [3]) 1 true.

(** The mask of a one-axis patch of size 10 as a list. *)
Definition mask_row (m : result (ndarray bool)) : option (list Z * list bool) :=
  match m with
  | Ok m => Some (shape m, (λ k, item m [k]) <$> seqZ 0 10)
  | Raise _ => None
  end.

Definition selection_2d : DataSelection.t := DataSelection.Make ["a"; "b"] (0, 2) (0, 2) 2.

Definition selection_3d : DataSelection.t := DataSelection.Make ["a"] (0, 2) (0, 2) 3.

Definition selection_no_heights : DataSelection.t := DataSelection.Make ["a"] (0, 0) (0, 2) 3.

(** Two samples, two days, a single height, in three dimensions. *)
Definition selection_volumes : DataSelection.t :=
  DataSelection.Make ["a"; "b"] (0, 1) (0, 2) 3.


Definition dataset_2d_patches : XRayDataset.t :=
  XRayDataset.__init__ "data.h5" selection_2d "train" (Some [10; 10]) (Some [3; 3]) 2 true.

Definition dataset_full_patch : XRayDataset.t :=
  XRayDataset.__init__ "data.h5" selection_2d "train" (Some [20; 20]) None 2 true.

Definition dataset_no_heights : XRayDataset.t :=
  XRayDataset.__init__ "data.h5" selection_no_heights "train" None None 3 true.

(** A runtime whose permutation is the identity and whose float product is exact. *)
Definition runtime0 : runtime :=
  Runtime (λ _ n, seqZ 0 n) (λ x n, Qred (x * inject_Z n)).

(** Train on sample [a], day 0, both heights, half of the points for validation. *)
Definition module_2d : XRayDataModule.t :=
  XRayDataModule.__init__ "data.h5" ["a"] (0, 2) (0, 1) (1 # 2) 4 0 1 2 None None.

(** * Properties *)

(** ** The error monad and the built-ins *)

Lemma bind_ok {A B} (r : result A) (f : A → result B) (b : B) :
  r ≫= f = Ok b ↔ ∃ a, r = Ok a ∧ f a = Ok b.
Proof.
  destruct r as [a|e]; cbn; split.
  - eauto.
  - intros (a' & [= <-] & H). exact H.
  - discriminate.
  - intros (a' & [=] & _).
Qed.

Lemma norm_index_in_range (n k : Z) :
  0 ≤ k < n → norm_index n k = Ok k.
Proof.
  intros H. unfold norm_index.
  destruct (Z.leb_spec 0 k), (Z.ltb_spec k n); cbn; first done; lia.
Qed.

Lemma norm_index_negative (n k : Z) :
  - n ≤ k < 0 → norm_index n k = Ok (k + n).
Proof.
  intros H. unfold norm_index.
  destruct (Z.leb_spec 0 k), (Z.ltb_spec k n); cbn; try lia;
  destruct (Z.leb_spec (-n) k), (Z.ltb_spec k 0); cbn; try lia; done.
Qed.

Lemma norm_index_out (n k : Z) :
  ¬ (- n ≤ k < n) → norm_index n k = Raise IndexError.
Proof.
  intros H. unfold norm_index.
  destruct (Z.leb_spec 0 k), (Z.ltb_spec k n); cbn; try lia;
  destruct (Z.leb_spec (-n) k), (Z.ltb_spec k 0); cbn; try lia; done.
Qed.

Lemma getitem_lookup {A} (l : list A) (i : nat) (x : A) :
  l !! i = Some x → getitem l (Z.of_nat i) = Ok x.
Proof.
  intros H. unfold getitem.
  rewrite norm_index_in_range; cbn.
  - by rewrite Nat2Z.id, H.
  - apply lookup_lt_Some in H. lia.
Qed.

Lemma getitem_ok_elem {A} (l : list A) (k : Z) (x : A) :
  getitem l k = Ok x → x ∈ l.
Proof.
  unfold getitem. intros H. apply bind_ok in H as (i & _ & H).
  destruct (l !! Z.to_nat i) eqn:E; [|discriminate].
  injection H as <-. by eapply list_elem_of_lookup_2.
Qed.

Lemma mapM_ok_Forall2 {A B} (f : A → result B) (l : list A) (k : list B) :
  mapM f l = Ok k ↔ Forall2 (fun x y => f x = Ok y) l k.
Proof.
  revert k. induction l as [|x l IH]; intros k; cbn.
  - split; [intros [= <-]; constructor | by inversion 1].
  - split.
    + intros H. apply bind_ok in H as (y & Hy & H).
      apply bind_ok in H as (k' & Hk' & [= <-]).
      constructor; [done | by apply IH].
    + inversion 1 as [|? y ? k' Hy Hk']; subst.
      apply bind_ok. exists y. split; [done|].
      apply bind_ok. exists k'. split; [by apply IH | done].
Qed.

Lemma range_lookup (n : Z) (i : nat) :
  (i < Z.to_nat n)%nat → range n !! i = Some (Z.of_nat i).
Proof.
  intros H. unfold range. rewrite lookup_seqZ_lt by lia. f_equal; lia.
Qed.

Lemma range_length (n : Z) : length (range n) = Z.to_nat n.
Proof. unfold range. apply length_seqZ. Qed.

(** A comprehension over [range(n)] whose body succeeds at every index. *)
Lemma comprehension_ok {A} (f : Z → result A) (n : Z) (g : nat → A) :
  (∀ i : nat, (i < Z.to_nat n)%nat → f (Z.of_nat i) = Ok (g i)) →
  comprehension f n = Ok (g <$> seq 0 (Z.to_nat n)).
Proof.
  intros H. unfold comprehension. apply mapM_ok_Forall2.
  apply Forall2_same_length_lookup_2.
  - by rewrite range_length, length_fmap, length_seq.
  - intros i x y Hx Hy.
    pose proof (lookup_lt_Some _ _ _ Hx) as Hi. rewrite range_length in Hi.
    rewrite range_lookup in Hx by done. injection Hx as <-.
    rewrite list_lookup_fmap, lookup_seq_lt in Hy by done. cbn in Hy.
    injection Hy as <-. by apply H.
Qed.

(** ** Border mask *)

Lemma in_bounds_length (sh idx : list Z) :
  in_bounds sh idx = true → length idx = length sh.
Proof.
  revert idx. induction sh as [|n sh IH]; intros [|k idx]; cbn; try done.
  intros H. apply andb_prop in H as [_ H]. f_equal. by apply IH.
Qed.

Lemma in_slices_lookup (sh : list Z) (sl : list (Z * Z)) (idx : list Z) :
  length idx = length sh → (length sl ≤ length sh)%nat →
  in_slices sh sl idx = true ↔
  ∀ (i : nat) n s k, sh !! i = Some n → sl !! i = Some s → idx !! i = Some k →
                     in_slice n s k = true.
Proof.
  revert sh idx. induction sl as [|s sl IH]; intros sh idx Hlen Hle; cbn.
  - split; [|by destruct sh]. intros _ i n s k _ Hs.
    rewrite lookup_nil in Hs. discriminate.
  - destruct sh as [|n sh]; [cbn in Hle; lia|].
    destruct idx as [|k idx]; [done|]. cbn in Hlen, Hle.
    cbn [in_slices]. rewrite andb_true_iff, IH by lia. split.
    + intros [H0 H] [|i] n' s' k'; cbn.
      * by intros [= <-] [= <-] [= <-].
      * apply H.
    + intros H. split.
      * by apply (H 0%nat).
      * intros i. apply (H (S i)).
Qed.

(** On non-negative bounds a Python slice is the half-open interval. *)
Lemma in_slice_interval (n start stop k : Z) :
  0 ≤ start → 0 ≤ stop → 0 ≤ k < n →
  in_slice n (start, stop) k = true ↔ start ≤ k < stop.
Proof.
  intros H1 H2 Hk. unfold in_slice, slice_bound. cbn [fst snd].
  destruct (Z.ltb_spec start 0), (Z.ltb_spec stop 0); lia.
Qed.

Lemma border_slice_ok (ps pb init_shape patch_starts : list Z) (i : nat)
    (size border pstart extent : Z) :
  ps !! i = Some size → pb !! i = Some border →
  patch_starts !! i = Some pstart → init_shape !! i = Some extent →
  XRayDataset.border_slice ps pb init_shape patch_starts (Z.of_nat i)
  = Ok (margin_start border pstart, size - margin_end border pstart size extent).
Proof.
  intros H1 H2 H3 H4. unfold XRayDataset.border_slice.
  rewrite (getitem_lookup _ _ _ H2); cbn.
  rewrite (getitem_lookup _ _ _ H3); cbn.
  rewrite (getitem_lookup _ _ _ H4); cbn.
  rewrite (getitem_lookup _ _ _ H1); cbn.
  reflexivity.
Qed.

Lemma full_ok {A} (size : list Z) (v : A) :
  Forall (λ n, 0 ≤ n) size → full size v = Ok (NdArray size (λ _, v)).
Proof.
  intros H. unfold full.
  replace (forallb _ size) with true; [done|].
  symmetry. apply forallb_forall. intros n Hn.
  rewrite Forall_forall in H. apply Z.leb_le, H. by apply list_elem_of_In.
Qed.

(** C1 (code as it is): a patch of size 10 with border 3 that starts at 0 on
    an axis of extent 20.  [compute_border_mask] subtracts the patch start,
    0, from the border, so the low margin stays 3: the mask is true exactly
    on positions 3..6 and position 0 is excluded. *)
Theorem border_mask_low_edge :
  mask_row (XRayDataset.compute_border_mask one_axis_dataset [20] [0])
  = Some ([10], [false; false; false; true; true; true; true; false; false; false]).
Proof. reflexivity. Qed.

(** C3 (code as it is): the same patch starting at 10, touching the far edge
    of the axis of extent 20.  The room behind the patch, 0, is subtracted
    from the border, so the end margin stays 3: positions 7..9 are excluded. *)
Theorem border_mask_far_edge :
  mask_row (XRayDataset.compute_border_mask one_axis_dataset [20] [10])
  = Some ([10], [false; false; false; true; true; true; true; false; false; false]).
Proof. reflexivity. Qed.



(** ** Index resolution *)

Lemma divmod_ok (a b : Z) : b ≠ 0 → divmod a b = Ok (a / b, a mod b).
Proof. intros H. unfold divmod. by destruct (Z.eqb_spec b 0). Qed.

Lemma getitem_out {A} (l : list A) (k : Z) :
  ¬ (- Z.of_nat (length l) ≤ k < Z.of_nat (length l)) → getitem l k = Raise IndexError.
Proof. intros H. unfold getitem. by rewrite norm_index_out. Qed.

Lemma getitem_in {A} (l : list A) (k : Z) :
  0 ≤ k < Z.of_nat (length l) → ∃ x, getitem l k = Ok x ∧ l !! Z.to_nat k = Some x.
Proof.
  intros H. destruct (lookup_lt_is_Some_2 l (Z.to_nat k)) as [x Hx]; [lia|].
  exists x. split; [|done]. rewrite <- (Z2Nat.id k) by lia. by apply getitem_lookup.
Qed.

Lemma getitem_wrap {A} (l : list A) (k : Z) :
  - Z.of_nat (length l) ≤ k < 0 → getitem l k = getitem l (k + Z.of_nat (length l)).
Proof.
  intros H. unfold getitem.
  rewrite norm_index_negative by lia. by rewrite norm_index_in_range by lia.
Qed.

Section Resolve.

Variable sel : DataSelection.t.
Let ns := DataSelection.num_samples sel.
Let nh := DataSelection.num_heights sel.
Let nd := DataSelection.num_days sel.
Let pps := DataSelection.points_per_sample sel.
Let N := DataSelection.num_points sel.
Let lo_d := (DataSelection.day_range sel).1.
Let lo_h := (DataSelection.height_range sel).1.

Hypothesis nh_pos : 0 < nh.
Hypothesis nd_pos : 0 < nd.

Lemma points_per_sample_pos : 0 < pps.
Proof.
  unfold pps, DataSelection.points_per_sample. fold nh nd.
  destruct (_ =? 2); lia.
Qed.

Lemma sample_index_range (idx : Z) : - N ≤ idx < N ↔ - ns ≤ idx / pps < ns.
Proof.
  pose proof points_per_sample_pos as Hp.
  unfold N, DataSelection.num_points. fold ns pps.
  split; intros [H1 H2]; split.
  - apply Z.div_le_lower_bound; lia.
  - apply Z.div_lt_upper_bound; lia.
  - pose proof (Z.mul_div_le idx pps Hp). nia.
  - destruct (Z.lt_ge_cases idx (ns * pps)) as [|Hge]; [lia|].
    assert (ns ≤ idx / pps) by (apply Z.div_le_lower_bound; lia). lia.
Qed.

(** Inside [-N, N) the index resolves; the day lies in the day range and
    the height in the height range. *)
Lemma resolve_index_in_range (idx : Z) :
  - N ≤ idx < N →
  ∃ s d h, XRayDataset.resolve_index sel idx = Ok (s, d, h) ∧
           s ∈ DataSelection.sample_list sel ∧
           lo_d ≤ d < lo_d + nd ∧ lo_h ≤ h < lo_h + nh.
Proof.
  intros Hidx. pose proof points_per_sample_pos as Hp.
  apply sample_index_range in Hidx.
  unfold XRayDataset.resolve_index. fold pps nh.
  rewrite divmod_ok by lia. cbn [mbind result_bind].
  assert (∃ s, getitem (DataSelection.sample_list sel) (idx / pps) = Ok s) as [s Hs].
  { unfold ns, DataSelection.num_samples in Hidx.
    destruct (Z.lt_ge_cases (idx / pps) 0).
    - rewrite getitem_wrap by lia.
      edestruct (getitem_in (DataSelection.sample_list sel)) as (s & Hs & _); [|by eauto]. lia.
    - edestruct (getitem_in (DataSelection.sample_list sel)) as (s & Hs & _); [|by eauto]. lia. }
  rewrite Hs. cbn [mbind result_bind].
  rewrite divmod_ok by lia. cbn [mbind result_bind].
  eexists _, _, _. split; [reflexivity|].
  split; [by eapply getitem_ok_elem|].
  pose proof (Z.mod_pos_bound idx pps Hp) as Hm.
  pose proof (Z.mod_pos_bound (idx mod pps) nh nh_pos).
  fold lo_d lo_h. split; [|lia].
  assert (0 ≤ idx mod pps / nh) by (apply Z.div_pos; lia).
  assert (idx mod pps / nh < nd); [|lia].
  apply Z.div_lt_upper_bound; [lia|].
  assert (pps ≤ nh * nd); [|lia].
  unfold pps, DataSelection.points_per_sample. fold nh nd.
  destruct (_ =? 2); nia.
Qed.

(** Outside [-N, N) the sample lookup raises. *)
Lemma resolve_index_out_of_range (idx : Z) :
  ¬ (- N ≤ idx < N) → XRayDataset.resolve_index sel idx = Raise IndexError.
Proof.
  intros Hidx. pose proof points_per_sample_pos as Hp.
  rewrite sample_index_range in Hidx.
  unfold XRayDataset.resolve_index. fold pps nh.
  rewrite divmod_ok by lia. cbn [mbind result_bind].
  rewrite getitem_out; [done|]. apply Hidx.
Qed.


End Resolve.

(** In two dimensions the resolution is one-to-one between [0, N) and the
    (position in [sample_list], day, height) triples of the selection. *)

Section Resolve2D.

Variable sel : DataSelection.t.
Let ns := DataSelection.num_samples sel.
Let nh := DataSelection.num_heights sel.
Let nd := DataSelection.num_days sel.
Let N := DataSelection.num_points sel.
Let lo_d := (DataSelection.day_range sel).1.
Let lo_h := (DataSelection.height_range sel).1.

Hypothesis two_dimensions : DataSelection.dimension sel = 2.
Hypothesis nh_pos : 0 < nh.
Hypothesis nd_pos : 0 < nd.

(** The flat index of the point at position [i] of [sample_list], day [d]
    and height [h]. *)
Let flat (i : nat) (d h : Z) : Z := (Z.of_nat i * nd + (d - lo_d)) * nh + (h - lo_h).

Lemma points_per_sample_2d : DataSelection.points_per_sample sel = nh * nd.
Proof. unfold DataSelection.points_per_sample. by rewrite two_dimensions. Qed.

(** X17: in two dimensions every (sample, day, height) of the selection is
    visited, at its flat index
    [(i * num_days + (day - day_lo)) * num_heights + (height - height_lo)],
    which lies in [0, num_points). *)
Lemma resolve_index_2d_flat (i : nat) (s : string) (d h : Z) :
  DataSelection.sample_list sel !! i = Some s →
  lo_d ≤ d < lo_d + nd → lo_h ≤ h < lo_h + nh →
  0 ≤ flat i d h < N ∧ XRayDataset.resolve_index sel (flat i d h) = Ok (s, d, h).
Proof.
  intros Hs Hd Hh. pose proof (lookup_lt_Some _ _ _ Hs) as Hi.
  assert (Hq : flat i d h = Z.of_nat i * (nh * nd) + ((d - lo_d) * nh + (h - lo_h)))
    by (unfold flat; lia).
  assert (Hr : 0 ≤ (d - lo_d) * nh + (h - lo_h) < nh * nd) by nia.
  split.
  - unfold N, DataSelection.num_points, DataSelection.num_samples.
    rewrite points_per_sample_2d. rewrite Hq. nia.
  - set (r := (d - lo_d) * nh + (h - lo_h)) in *.
    assert (Hdiv : flat i d h / (nh * nd) = Z.of_nat i).
    { symmetry. apply (Z.div_unique _ _ _ r); lia. }
    assert (Hmod : flat i d h mod (nh * nd) = r).
    { symmetry. apply (Z.mod_unique _ _ (Z.of_nat i)); lia. }
    assert (Hdiv' : r / nh = d - lo_d).
    { symmetry. apply (Z.div_unique _ _ _ (h - lo_h)); unfold r; lia. }
    assert (Hmod' : r mod nh = h - lo_h).
    { symmetry. apply (Z.mod_unique _ _ (d - lo_d)); unfold r; lia. }
    unfold XRayDataset.resolve_index. rewrite points_per_sample_2d. fold nh.
    rewrite divmod_ok by nia. cbn [mbind result_bind].
    rewrite Hdiv, Hmod, (getitem_lookup _ _ _ Hs). cbn [mbind result_bind].
    rewrite divmod_ok by lia. cbn [mbind result_bind].
    rewrite Hdiv', Hmod'. fold lo_d lo_h. do 3 f_equal; lia.
Qed.

(** X18: in two dimensions an index of [0, num_points) is the flat index of
    the point it resolves to, so no point is visited twice. *)
Lemma resolve_index_2d_unique (idx : Z) (s : string) (d h : Z) :
  0 ≤ idx < N → XRayDataset.resolve_index sel idx = Ok (s, d, h) →
  ∃ i : nat, DataSelection.sample_list sel !! i = Some s ∧
             lo_d ≤ d < lo_d + nd ∧ lo_h ≤ h < lo_h + nh ∧ idx = flat i d h.
Proof.
  intros Hidx. unfold XRayDataset.resolve_index.
  rewrite points_per_sample_2d. fold nh.
  assert (Hp : 0 < nh * nd) by nia.
  rewrite divmod_ok by lia. cbn [mbind result_bind].
  assert (Hq : 0 ≤ idx / (nh * nd) < ns).
  { unfold N, DataSelection.num_points in Hidx. rewrite points_per_sample_2d in Hidx.
    fold ns in Hidx. split; [apply Z.div_pos; lia|].
    apply Z.div_lt_upper_bound; lia. }
  destruct (getitem_in (DataSelection.sample_list sel) (idx / (nh * nd)) Hq)
    as (s' & -> & Hs').
  cbn [mbind result_bind]. rewrite divmod_ok by lia. cbn [mbind result_bind].
  intros [= -> <- <-]. exists (Z.to_nat (idx / (nh * nd))).
  pose proof (Z.mod_pos_bound idx (nh * nd) Hp) as Hm.
  pose proof (Z.mod_pos_bound (idx mod (nh * nd)) nh nh_pos) as Hm'.
  pose proof (Z.div_mod idx (nh * nd) ltac:(lia)) as E1.
  pose proof (Z.div_mod (idx mod (nh * nd)) nh ltac:(lia)) as E2.
  assert (0 ≤ idx mod (nh * nd) / nh < nd).
  { split; [apply Z.div_pos; lia|]. apply Z.div_lt_upper_bound; lia. }
  fold lo_d lo_h. split; [done|]. split; [lia|]. split; [lia|].
  unfold flat. rewrite Z2Nat.id by lia. nia.
Qed.

End Resolve2D.

(** ** Loading a point and cutting the patch *)


Lemma getitem_lookup_Z {A} (l : list A) (k : Z) (x : A) :
  0 ≤ k → l !! Z.to_nat k = Some x → getitem l k = Ok x.
Proof.
  intros Hk H. rewrite <- (Z2Nat.id k) by done. by apply getitem_lookup.
Qed.

Lemma array_index_ok {A} (a : ndarray A) (n k : Z) (sh : list Z) :
  shape a = n :: sh → 0 ≤ k < n →
  ∃ b, array_index a k = Ok b ∧ shape b = sh.
Proof.
  intros Hsh Hk. unfold array_index. rewrite Hsh, norm_index_in_range by done.
  by eexists.
Qed.


Section Loading.

Variables (self : XRayDataset.t) (file : h5file) (sh : list Z).
Let sel := XRayDataset.selection self.
Let d := Z.to_nat (XRayDataset.dimension self).

Lemma load_ok (s : string) (day height : Z) :
  sample_stored self file sh s →
  (DataSelection.day_range sel).1 ≤ day < (DataSelection.day_range sel).2 →
  (DataSelection.height_range sel).1 ≤ height < (DataSelection.height_range sel).2 →
  ∃ data labels, XRayDataset.load self file (s, day, height) = Ok (data, labels) ∧
                 shape data = sh ∧ shape labels = sh.
Proof.
  intros (members & data & labels & days & Hg & Hd & Hl & Hsame & Hlo & Hhi & Hshape)
         Hday Hheight.
  fold sel in Hlo, Hhi, Hshape.
  unfold XRayDataset.load, h5_get. rewrite Hg. cbn [mbind result_bind h5_dataset].
  rewrite Hd, Hl. cbn [mbind result_bind].
  destruct (XRayDataset.dimension self =? 2).
  - destruct Hshape as (heights & Hshape & Hhlo & Hhhi).
    destruct (array_index_ok data days day _ Hshape) as (data1 & -> & Hs1); [lia|].
    rewrite Hshape in Hsame.
    destruct (array_index_ok labels days day _ Hsame) as (labels1 & -> & Hs2); [lia|].
    cbn [mbind result_bind].
    destruct (array_index_ok data1 heights height _ Hs1) as (data2 & -> & Hs3); [lia|].
    destruct (array_index_ok labels1 heights height _ Hs2) as (labels2 & -> & Hs4); [lia|].
    cbn [mbind result_bind]. by eexists _, _.
  - destruct (array_index_ok data days day _ Hshape) as (data1 & -> & Hs1); [lia|].
    rewrite Hshape in Hsame.
    destruct (array_index_ok labels days day _ Hsame) as (labels1 & -> & Hs2); [lia|].
    cbn [mbind result_bind]. by eexists _, _.
Qed.

Hypothesis fits : patch_fits self sh.

Lemma patch_max_starts_ok (ps : list Z) :
  (d ≤ length ps)%nat → (d ≤ length sh)%nat →
  XRayDataset.patch_max_starts self sh ps
  = Ok ((λ i : nat, sh !!! i - ps !!! i) <$> seq 0 d).
Proof.
  intros H1 H2. unfold XRayDataset.patch_max_starts. apply comprehension_ok.
  intros i Hi. fold d in Hi.
  rewrite (getitem_lookup sh i (sh !!! i)) by (apply list_lookup_lookup_total_lt; lia).
  cbn [mbind result_bind].
  rewrite (getitem_lookup ps i (ps !!! i)) by (apply list_lookup_lookup_total_lt; lia).
  reflexivity.
Qed.




End Loading.

(** ** [__getitem__] *)

Lemma getitem_unfold (disk : h5file) (idx : Z) (self : XRayDataset.t) (g : rng) :
  XRayDataset.__getitem__ disk idx (self, g) =
    match (point ← XRayDataset.resolve_index (XRayDataset.selection self) idx;
           XRayDataset.load self (default disk (XRayDataset.hdf5_file self)) point) with
    | Raise e => (Raise e, (XRayDataset.open_file disk self, g))
    | Ok (data, labels) =>
        let '(r, g') := XRayDataset.finish self data labels g in
        (r, (XRayDataset.open_file disk self, g'))
    end.
Proof. destruct self as [nm path [f|] sel ps pb sh dim]; reflexivity. Qed.




Lemma getitem_raise {A} (l : list A) (k : Z) (e : exn) :
  getitem l k = Raise e → e = IndexError.
Proof.
  unfold getitem, norm_index.
  destruct (_ && _); cbn; [destruct (l !! _); congruence|].
  destruct (_ && _); cbn; [destruct (l !! _); congruence|congruence].
Qed.

Lemma resolve_index_sample (sel : DataSelection.t) (idx : Z) (s : string) (d h : Z) :
  XRayDataset.resolve_index sel idx = Ok (s, d, h) → s ∈ DataSelection.sample_list sel.
Proof.
  unfold XRayDataset.resolve_index. intros H.
  apply bind_ok in H as ([q r] & _ & H).
  apply bind_ok in H as (s' & Hs & H).
  apply bind_ok in H as ([q' r'] & _ & [= <- _ _]).
  by eapply getitem_ok_elem.
Qed.

(** C2 (code as it is): in three dimensions [__getitem__] still divides the
    index within the sample by [num_heights].  With one sample, two days and
    two heights the dataset has two points; indices 0 and 1 both resolve to
    day 0, and no index resolves to day 1. *)
Theorem resolve_index_3d_repeats_day :
  DataSelection.num_points selection_3d = 2 ∧
  XRayDataset.resolve_index selection_3d 0 = Ok ("a", 0, 0) ∧
  XRayDataset.resolve_index selection_3d 1 = Ok ("a", 0, 1) ∧
  ∀ idx s h, XRayDataset.resolve_index selection_3d idx ≠ Ok (s, 1, h).
Proof.
  repeat split; try reflexivity.
  intros idx s h H. unfold XRayDataset.resolve_index in H.
  apply bind_ok in H as ([q r] & Hq & H).
  apply bind_ok in H as (s' & _ & H).
  apply bind_ok in H as ([q' r'] & Hq' & [= _ Hd _]).
  change (DataSelection.points_per_sample selection_3d) with 2 in Hq.
  change (DataSelection.num_heights selection_3d) with 2 in Hq'.
  rewrite divmod_ok in Hq, Hq' by lia.
  injection Hq as _ <-. injection Hq' as <- _.
  pose proof (Z.mod_pos_bound idx 2 ltac:(lia)).
  rewrite Z.div_small in Hd by lia. cbn in Hd. lia.
Qed.

(** C10 (as stated, refuted): one sample, two days, no heights, three
    dimensions.  Index 5 is out of range and the sample lookup raises
    [IndexError] before the division by [num_heights] is reached. *)
Lemma getitem_no_heights_index_error :
  DataSelection.num_heights (XRayDataset.selection dataset_no_heights) = 0 ∧
  (XRayDataset.__getitem__ disk_ab 5 (dataset_no_heights, rng0)).1 = Raise IndexError.
Proof. split; reflexivity. Qed.

(** C10 (amended): when the height range is empty every call of
    [__getitem__] fails, in every dimension.  The error is a division by zero
    for every index of [0, num_points) and, in two dimensions, for every
    index at all; otherwise it is a division by zero or, when the sample
    lookup fails first, an [IndexError]. *)
Theorem getitem_no_heights (disk : h5file) (self : XRayDataset.t) (g : rng) (idx : Z) :
  DataSelection.num_heights (XRayDataset.selection self) = 0 →
  let r := (XRayDataset.__getitem__ disk idx (self, g)).1 in
  (r = Raise ZeroDivisionError ∨ r = Raise IndexError) ∧
  (0 ≤ idx < XRayDataset.__len__ self → r = Raise ZeroDivisionError) ∧
  (DataSelection.dimension (XRayDataset.selection self) = 2 → r = Raise ZeroDivisionError).
Proof.
  intros Hnh r. unfold r. rewrite getitem_unfold.
  unfold XRayDataset.resolve_index, XRayDataset.__len__, DataSelection.num_points.
  rewrite Hnh.
  set (sel := XRayDataset.selection self) in *.
  set (pps := DataSelection.points_per_sample sel).
  destruct (Z.eq_dec pps 0) as [Hz|Hz].
  { rewrite Hz. cbn. by repeat split; try left. }
  rewrite divmod_ok by done. cbn [mbind result_bind].
  destruct (getitem (DataSelection.sample_list sel) (idx / pps)) as [s|e] eqn:Hs;
    cbn [mbind result_bind divmod Z.eqb fst].
  { by repeat split; try left. }
  apply getitem_raise in Hs as Hs'. subst e. cbn [fst]. split; [by right|]. split.
  - intros Hidx. exfalso.
    assert (0 < pps) by (unfold DataSelection.num_samples in Hidx; nia).
    destruct (getitem_in (DataSelection.sample_list sel) (idx / pps)) as (x & Hx & _).
    + unfold DataSelection.num_samples in Hidx. split.
      * apply Z.div_pos; lia.
      * apply Z.div_lt_upper_bound; lia.
    + congruence.
  - intros Hdim. exfalso. apply Hz.
    unfold pps, DataSelection.points_per_sample. rewrite Hdim, Hnh. reflexivity.
Qed.

Lemma getitem_no_heights_witness :
  DataSelection.num_heights (XRayDataset.selection dataset_no_heights) = 0 ∧
  let r := (XRayDataset.__getitem__ disk_ab 1 (dataset_no_heights, rng0)).1 in
  (r = Raise ZeroDivisionError ∨ r = Raise IndexError) ∧
  (0 ≤ 1 < XRayDataset.__len__ dataset_no_heights → r = Raise ZeroDivisionError) ∧
  (DataSelection.dimension (XRayDataset.selection dataset_no_heights) = 2 →
   r = Raise ZeroDivisionError).
Proof.
  split; [reflexivity|].
  apply (getitem_no_heights disk_ab dataset_no_heights rng0 1). reflexivity.
Defined.

(** C6 (code as it is): the random start is [np.random.randint(0, max_start)],
    whose upper bound is exclusive.  A patch as large as the array
    ([max_start = 0]) makes every call raise [ValueError], whatever the
    generator, and [max_start] itself is never drawn. *)
Theorem random_start_excludes_max_start :
  (∀ g, (XRayDataset.__getitem__ disk_ab 0 (dataset_full_patch, g)).1 = Raise ValueError) ∧
  (∀ m g, (randint 0 m g).1 ≠ Ok m).
Proof.
  split.
  - intros g. reflexivity.
  - intros m g. unfold randint.
    destruct (Z.leb_spec m 0); cbn; [discriminate|].
    intros [= Hm]. pose proof (Z.mod_pos_bound (stream g (cursor g)) (m - 0)). lia.
Qed.

Lemma init_shuffle hdf5_path data_selection name patch_size patch_border dimension
    (shuffle : bool) :
  XRayDataset.shuffle (XRayDataset.__init__ hdf5_path data_selection name patch_size
                         patch_border dimension shuffle) = true.
Proof. reflexivity. Qed.

Lemma getitem_shuffle (disk : h5file) (idx : Z) (self : XRayDataset.t) (g : rng) :
  XRayDataset.shuffle (XRayDataset.__getitem__ disk idx (self, g)).2.1
  = XRayDataset.shuffle self.
Proof.
  rewrite getitem_unfold.
  destruct (_ ≫= _) as [[data labels]|e]; [destruct (XRayDataset.finish _ _ _ _)|];
    cbn [snd fst]; unfold XRayDataset.open_file;
    by destruct (XRayDataset.hdf5_file self).
Qed.

(** C7: whatever [shuffle] argument the constructor is given, the field is
    [True], and [__getitem__], the only operation that writes to the object,
    keeps it; so on every dataset the class produces the patch starts are the
    random ones and the centred branch is never taken. *)
Theorem shuffle_always_true (self : XRayDataset.t) :
  constructed self →
  XRayDataset.shuffle self = true ∧
  ∀ init_shape patch_size,
    XRayDataset.choose_patch_starts self init_shape patch_size
    = (max_starts ← lift (XRayDataset.patch_max_starts self init_shape patch_size);
       XRayDataset.random_patch_starts self max_starts).
Proof.
  intros H.
  assert (Hs : XRayDataset.shuffle self = true).
  { induction H as [|disk idx self g _ IH]; [apply init_shuffle|].
    by rewrite getitem_shuffle. }
  split; [done|]. intros init_shape patch_size.
  unfold XRayDataset.choose_patch_starts. by rewrite Hs.
Qed.

Lemma shuffle_always_true_witness :
  let self := (XRayDataset.__getitem__ disk_ab 0
                 (XRayDataset.__init__ "data.h5" selection_2d "val" None None 2 false,
                  rng0)).2.1 in
  constructed self ∧
  XRayDataset.shuffle self = true ∧
  ∀ init_shape patch_size,
    XRayDataset.choose_patch_starts self init_shape patch_size
    = (max_starts ← lift (XRayDataset.patch_max_starts self init_shape patch_size);
       XRayDataset.random_patch_starts self max_starts).
Proof.
  intros self.
  assert (H : constructed self) by (apply constructed_getitem, constructed_init).
  split; [exact H|]. exact (shuffle_always_true self H).
Defined.

(** ** The split *)

Lemma slice_bound_range (n b : Z) : 0 ≤ n → 0 ≤ slice_bound n b ≤ n.
Proof. intros H. unfold slice_bound. destruct (Z.ltb_spec b 0); lia. Qed.

(** Cutting a list at any bound, the Python way, gives back the list. *)
Lemma list_slice_cut {A} (l : list A) (n1 n2 : Z) :
  n1 + n2 = Z.of_nat (length l) →
  list_slice l (n1 - n1) n1 ++ list_slice l (n1 + n2 - n2) (n1 + n2) = l.
Proof.
  intros Hn. unfold list_slice, slice_len. cbn [fst snd].
  set (n := Z.of_nat (length l)).
  pose proof (slice_bound_range n n1 ltac:(lia)) as Hb.
  replace (n1 - n1) with 0 by lia. replace (n1 + n2 - n2) with n1 by lia.
  rewrite Hn. fold n.
  replace (slice_bound n 0) with 0 by (unfold slice_bound; cbn; lia).
  replace (slice_bound n n) with n by (unfold slice_bound; destruct (Z.ltb_spec n 0); lia).
  cbn [Z.to_nat drop]. rewrite Z.sub_0_r.
  assert (Hn' : n = Z.of_nat (length l)) by reflexivity. clearbody n.
  change (drop (Z.to_nat 0) l) with l.
  rewrite (take_ge (drop _ _)) by (rewrite length_drop; lia).
  rewrite Z.max_r by lia. apply take_drop.
Qed.

Lemma list_slice_cut_lengths {A} (l : list A) (n1 n2 : Z) :
  n1 + n2 = Z.of_nat (length l) → 0 ≤ n1 → 0 ≤ n2 →
  Z.of_nat (length (list_slice l (n1 - n1) n1)) = n1 ∧
  Z.of_nat (length (list_slice l (n1 + n2 - n2) (n1 + n2))) = n2.
Proof.
  intros Hn H1 H2. unfold list_slice, slice_len. cbn [fst snd].
  set (n := Z.of_nat (length l)).
  replace (n1 - n1) with 0 by lia. replace (n1 + n2 - n2) with n1 by lia.
  rewrite Hn. fold n.
  replace (slice_bound n 0) with 0 by (unfold slice_bound; cbn; lia).
  replace (slice_bound n n) with n by (unfold slice_bound; destruct (Z.ltb_spec n 0); lia).
  replace (slice_bound n n1) with n1
    by (unfold slice_bound; destruct (Z.ltb_spec n1 0); lia).
  assert (Hn' : n = Z.of_nat (length l)) by reflexivity. clearbody n.
  change (drop (Z.to_nat 0) l) with l.
  rewrite !length_take, !length_drop. lia.
Qed.

Lemma int_of_float_floor (x : Q) : (0 <= x)%Q → int_of_float x = Qfloor x.
Proof.
  destruct x as [num den]. unfold Qle, int_of_float, Qfloor. cbn.
  intros H. apply Z.quot_div_nonneg; lia.
Qed.

(** What a successful [random_split] returns. *)
Lemma random_split_indices (rt : runtime) (dataset : XRayDataset.t) (n1 n2 seed : Z)
    (a b : Subset.t) :
  random_split rt dataset (n1, n2) seed = Ok (a, b) →
  n1 + n2 = XRayDataset.__len__ dataset ∧
  Subset.dataset a = dataset ∧ Subset.dataset b = dataset ∧
  Subset.indices a = list_slice (randperm rt seed (n1 + n2)) (n1 - n1) n1 ∧
  Subset.indices b = list_slice (randperm rt seed (n1 + n2)) (n1 + n2 - n2) (n1 + n2).
Proof.
  unfold random_split. destruct (_ && _); [discriminate|].
  destruct (Z.eqb_spec (n1 + n2) (XRayDataset.__len__ dataset)); cbn; [|discriminate].
  by intros [= <- <-].
Qed.

Lemma permutation_length_seqZ (l : list Z) (n : Z) :
  l ≡ₚ seqZ 0 n → Z.of_nat (length l) = Z.max 0 n.
Proof. intros H. rewrite (Permutation_length H), length_seqZ. lia. Qed.

(** C8 (as stated, refuted): training on sample [a], day 0, two heights and a
    validation split of one half.  The two points of the train+val dataset
    are the two heights of the same (sample, day) pair; one goes to [train]
    and the other to [val], so both views reach the pair ([a], 0). *)
Lemma train_val_share_sample_day :
  ∃ ds, XRayDataModule.prepare_data runtime0 disk_ab module_2d = Ok ds ∧
        subset_reaches (XRayDataModule.train ds) ("a", 0) ∧
        subset_reaches (XRayDataModule.val ds) ("a", 0).
Proof.
  eexists. split; [reflexivity|]. split.
  - exists 0, 0. reflexivity.
  - exists 0, 1. reflexivity.
Qed.

(** C8 (amended): the random split puts every point index of the train+val
    dataset in exactly one of [train] and [val], and [test_strict] takes its
    samples outside [train_samples], so no (sample, day) pair of [test_strict]
    is reached by [train] or by [val].  ([train] and [val] may reach the same
    (sample, day) pair through different heights.) *)
Theorem split_views_disjoint (rt : runtime) (disk : h5file) (self : XRayDataModule.t)
    (ds : XRayDataModule.datasets) :
  (∀ seed n, randperm rt seed n ≡ₚ seqZ 0 n) →
  XRayDataModule.prepare_data rt disk self = Ok ds →
  let train_val :=
    DataSelection.Make (XRayDataModule.train_samples self) (XRayDataModule.height_range self)
      (XRayDataModule.train_day_range self) (XRayDataModule.dimension self) in
  Subset.indices (XRayDataModule.train ds) ++ Subset.indices (XRayDataModule.val ds)
    ≡ₚ seqZ 0 (DataSelection.num_points train_val) ∧
  (∀ j, j ∈ Subset.indices (XRayDataModule.train ds) →
        j ∉ Subset.indices (XRayDataModule.val ds)) ∧
  (∀ p, dataset_reaches (XRayDataModule.test_strict ds) p →
        ¬ subset_reaches (XRayDataModule.train ds) p ∧
        ¬ subset_reaches (XRayDataModule.val ds) p).
Proof.
  intros Hperm Hprep train_val.
  unfold XRayDataModule.prepare_data in Hprep.
  apply bind_ok in Hprep as ([tr va] & Hsplit & Hprep).
  apply bind_ok in Hprep as (first & _ & Hprep).
  apply bind_ok in Hprep as (total_days & _ & [= <-]).
  cbn [XRayDataModule.train XRayDataModule.val XRayDataModule.test_strict].
  unfold XRayDataModule.split_train_val in Hsplit.
  set (n2 := int_of_float _) in Hsplit. set (n1 := _ - n2) in Hsplit.
  apply random_split_indices in Hsplit as (Hsum & Hda & Hdb & Ha & Hb).
  change (XRayDataset.__len__ _) with (DataSelection.num_points train_val) in Hsum.
  set (N := DataSelection.num_points train_val) in *.
  clearbody n1 n2 N.
  assert (Hcat : Subset.indices tr ++ Subset.indices va ≡ₚ seqZ 0 N).
  { rewrite Ha, Hb.
    pose proof (Hperm (XRayDataModule.seed self) (n1 + n2)) as HP.
    destruct (Z.le_gt_cases 0 N) as [HN|HN].
    - rewrite list_slice_cut; [by rewrite HP, Hsum|].
      rewrite (permutation_length_seqZ _ (n1 + n2)) by done. lia.
    - rewrite seqZ_nil in HP by lia. apply Permutation_nil_r in HP.
      rewrite HP, seqZ_nil by lia. unfold list_slice.
      by rewrite !drop_nil, !take_nil. }
  split; [exact Hcat|]. split.
  - assert (Hnd : NoDup (Subset.indices tr ++ Subset.indices va)).
    { rewrite Hcat. apply NoDup_seqZ. }
    apply NoDup_app in Hnd as (_ & Hnd & _). exact Hnd.
  - intros [s d] (idx & h & Hres). cbn [fst snd] in Hres.
    apply resolve_index_sample in Hres. cbn in Hres.
    apply elem_of_elements, elem_of_difference in Hres as [_ Hnot].
    rewrite elem_of_list_to_set in Hnot.
    split; intros (i & h' & Hsub); apply Hnot; cbn [fst snd] in Hsub;
      unfold Subset.resolve_index in Hsub;
      apply bind_ok in Hsub as (j & _ & Hsub);
      apply resolve_index_sample in Hsub;
      [rewrite Hda in Hsub | rewrite Hdb in Hsub]; exact Hsub.
Qed.

Lemma split_views_disjoint_witness :
  ∃ ds,
    XRayDataModule.prepare_data runtime0 disk_ab module_2d = Ok ds ∧
    let train_val := DataSelection.Make ["a"] (0, 2) (0, 1) 2 in
    Subset.indices (XRayDataModule.train ds) ++ Subset.indices (XRayDataModule.val ds)
      ≡ₚ seqZ 0 (DataSelection.num_points train_val) ∧
    (∀ j, j ∈ Subset.indices (XRayDataModule.train ds) →
          j ∉ Subset.indices (XRayDataModule.val ds)) ∧
    (∀ p, dataset_reaches (XRayDataModule.test_strict ds) p →
          ¬ subset_reaches (XRayDataModule.train ds) p ∧
          ¬ subset_reaches (XRayDataModule.val ds) p).
Proof.
  eexists. split; [reflexivity|].
  apply (split_views_disjoint runtime0 disk_ab module_2d).
  - intros seed n. reflexivity.
  - reflexivity.
Defined.

(** C9: the validation view gets [floor(validation_split * num_points)]
    indices, the product being the float product the code computes, and the
    train view gets the remaining [num_points - floor(...)], where
    [num_points] is the size of the train+val selection and the fraction is
    such that the count lies in [0, num_points]. *)
Theorem split_train_val_sizes (rt : runtime) (self : XRayDataModule.t) :
  let train_val :=
    DataSelection.Make (XRayDataModule.train_samples self) (XRayDataModule.height_range self)
      (XRayDataModule.train_day_range self) (XRayDataModule.dimension self) in
  let N := DataSelection.num_points train_val in
  let x := float_mul rt (XRayDataModule.validation_split self) N in
  (∀ seed n, randperm rt seed n ≡ₚ seqZ 0 n) →
  (0 <= x)%Q → Qfloor x ≤ N →
  ∃ train val,
    XRayDataModule.split_train_val rt self = Ok (train, val) ∧
    Subset.__len__ val = Qfloor x ∧
    Subset.__len__ train = N - Qfloor x.
Proof.
  intros train_val N x Hperm Hx Hle.
  assert (H0 : 0 ≤ Qfloor x).
  { replace 0 with (Qfloor 0) by reflexivity. by apply Qfloor_resp_le. }
  unfold XRayDataModule.split_train_val.
  change (XRayDataset.__len__ _) with N. fold x.
  rewrite int_of_float_floor by done.
  set (n2 := Qfloor x) in *. set (n1 := N - n2).
  unfold random_split.
  change (XRayDataset.__len__ _) with N.
  replace (n1 + n2) with N by (unfold n1; lia).
  destruct (andb _ (negb _)) eqn:Hguard.
  { apply andb_prop in Hguard as [HN Hneg]. apply Z.eqb_eq in HN.
    apply negb_true_iff in Hneg. exfalso.
    assert (E1 : (0 <=? n1) = true) by (apply Z.leb_le; unfold n1; lia).
    assert (E2 : (n1 <=? 1) = true) by (apply Z.leb_le; unfold n1; lia).
    assert (E3 : (0 <=? n2) = true) by (apply Z.leb_le; lia).
    assert (E4 : (n2 <=? 1) = true) by (apply Z.leb_le; lia).
    rewrite E1, E2, E3, E4 in Hneg. discriminate. }
  rewrite Z.eqb_refl. cbn [negb].
  eexists _, _. split; [reflexivity|].
  unfold Subset.__len__. cbn [Subset.indices].
  destruct (list_slice_cut_lengths (randperm rt (XRayDataModule.seed self) N) n1 n2)
    as [Hl1 Hl2].
  - rewrite (permutation_length_seqZ _ N) by done. unfold n1. lia.
  - unfold n1. lia.
  - lia.
  - replace (N - n2 + n2) with N in Hl2 by lia.
    replace (n1 + n2) with N in Hl2 by (unfold n1; lia).
    fold n1 in Hl1. split; [exact Hl2 | exact Hl1].
Qed.

Lemma split_train_val_sizes_witness :
  let N := DataSelection.num_points (DataSelection.Make ["a"] (0, 2) (0, 1) 2) in
  let x := float_mul runtime0 (1 # 2) N in
  (0 <= x)%Q ∧ Qfloor x ≤ N ∧
  ∃ train val,
    XRayDataModule.split_train_val runtime0 module_2d = Ok (train, val) ∧
    Subset.__len__ val = Qfloor x ∧
    Subset.__len__ train = N - Qfloor x.
Proof.
  intros N x.
  assert (H1 : (0 <= x)%Q) by (vm_compute; discriminate).
  assert (H2 : Qfloor x ≤ N) by (vm_compute; discriminate).
  split; [exact H1|]. split; [exact H2|].
  apply (split_train_val_sizes runtime0 module_2d); [|exact H1|exact H2].
  intros seed n. reflexivity.
Defined.

(** * Further properties *)

(** ** Patches *)

(** The random starts: one draw per axis, each below its maximum. *)
Lemma random_draws_spec (max_starts : list Z) (l : list Z) (g : rng) :
  (∀ x, x ∈ l → ∃ m, getitem max_starts x = Ok m ∧ 0 < m) →
  ∃ k, mapM (λ i, m ← lift (getitem max_starts i); randint 0 m) l g
       = (Ok k, Rng (stream g) (cursor g + length l)) ∧
       Forall2 (λ x st, ∃ m, getitem max_starts x = Ok m ∧ 0 ≤ st < m) l k.
Proof.
  revert g. induction l as [|x l IH]; intros g Hl.
  - exists []. split; [|constructor]. destruct g as [s c]. cbn. by rewrite Nat.add_0_r.
  - destruct (Hl x) as (m & Hm & Hpos); [by left|].
    set (g1 := Rng (stream g) (S (cursor g))).
    destruct (IH g1) as (k & Hk & HF).
    { intros y Hy. apply Hl. by right. }
    exists ((0 + stream g (cursor g) mod (m - 0)) :: k). split.
    + cbn [mapM]. unfold mbind at 1, py_bind at 1.
      unfold mbind at 1, py_bind at 1, lift at 1. rewrite Hm. unfold randint at 1.
      destruct (Z.leb_spec m 0); [lia|]. fold g1.
      unfold mbind, py_bind in Hk |- *. rewrite Hk. cbn.
      do 2 f_equal. lia.
    + constructor; [|done]. exists m. split; [done|].
      pose proof (Z.mod_pos_bound (stream g (cursor g)) (m - 0)). lia.
Qed.

Lemma slice_bound_inside (n b : Z) : 0 ≤ b ≤ n → slice_bound n b = b.
Proof. intros H. unfold slice_bound. destruct (Z.ltb_spec b 0); lia. Qed.

(** Cutting [size] positions from [start] on every axis, inside the array. *)
Lemma sliced_patch (sh ps starts : list Z) :
  length starts = length sh → length ps = length sh →
  (∀ (i : nat) st n p, starts !! i = Some st → sh !! i = Some n → ps !! i = Some p →
                       0 ≤ st ∧ 0 ≤ p ∧ st + p ≤ n) →
  let slices := zip_with (λ start size, (start, start + size)) starts ps in
  sliced_shape sh slices = ps ∧
  ∀ idx, length idx = length sh → sliced_pos sh slices idx = zip_with Z.add starts idx.
Proof.
  revert ps starts. induction sh as [|n sh IH]; intros [|p ps] [|st starts]; try done.
  { intros _ _ _. split; [done|]. by intros [|k idx]. }
  cbn [length]. intros Hl1 Hl2 H.
  destruct (H 0%nat st n p) as (H1 & H2 & H3); [done..|].
  destruct (IH ps starts) as [IH1 IH2]; [lia|lia|intros i; apply (H (S i))|].
  cbn [zip_with sliced_shape sliced_pos]. split.
  - rewrite IH1. f_equal. unfold slice_len. cbn [fst snd].
    rewrite !slice_bound_inside by lia. lia.
  - intros [|k idx]; [done|]. cbn [length]. intros Hl.
    cbn [sliced_pos zip_with fst]. rewrite slice_bound_inside by lia.
    f_equal. apply IH2. lia.
Qed.

Section PatchSpec.

Variables (self : XRayDataset.t) (sh ps : list Z).
Let d := Z.to_nat (XRayDataset.dimension self).

Hypothesis patch_configured : XRayDataset.patch_size self = Some ps.
Hypothesis fits : patch_fits self sh.

(** Where the patch starts: one start per axis, leaving room for the patch;
    the random branch draws once per axis, the centred one never. *)
Lemma choose_patch_starts_spec (g : rng) :
  ∃ starts g',
    XRayDataset.choose_patch_starts self sh ps g = (Ok starts, g') ∧
    length starts = d ∧
    (∀ (i : nat) st, starts !! i = Some st → 0 ≤ st < sh !!! i - ps !!! i) ∧
    g' = if XRayDataset.shuffle self then Rng (stream g) (cursor g + d) else g.
Proof.
  destruct fits as (Hsh & Hfit). rewrite patch_configured in Hfit.
  destruct Hfit as (Hlps & Hlsh & Hpos & Hlt & _). fold d in Hlps, Hlsh, Hlt.
  unfold XRayDataset.choose_patch_starts, lift, mbind at 1, py_bind.
  rewrite (patch_max_starts_ok self sh) by done. fold d.
  set (max_starts := (λ i : nat, sh !!! i - ps !!! i) <$> seq 0 d).
  assert (Hmax : ∀ i : nat, (i < d)%nat →
            max_starts !! i = Some (sh !!! i - ps !!! i) ∧ 0 < sh !!! i - ps !!! i).
  { intros i Hi. split.
    - unfold max_starts. by rewrite list_lookup_fmap, lookup_seq_lt.
    - assert (ps !!! i < sh !!! i); [|lia].
      apply (Hlt i); [done| |]; apply list_lookup_lookup_total_lt; lia. }
  destruct (XRayDataset.shuffle self).
  - unfold XRayDataset.random_patch_starts.
    destruct (random_draws_spec max_starts (range (XRayDataset.dimension self)) g)
      as (k & Hk & HF).
    { intros x Hx. unfold range in Hx. apply elem_of_seqZ in Hx.
      destruct (Hmax (Z.to_nat x)) as [Hm Hpos']; [unfold d; lia|].
      eexists. split; [|exact Hpos']. apply getitem_lookup_Z; [lia|exact Hm]. }
    exists k, (Rng (stream g) (cursor g + d)).
    pose proof (Forall2_length _ _ _ HF) as Hlen. rewrite range_length in Hlen. fold d in Hlen.
    split; [by rewrite Hk, range_length|]. split; [done|]. split; [|done].
    intros i st Hst. pose proof (lookup_lt_Some _ _ _ Hst) as Hi.
    assert (Hr : range (XRayDataset.dimension self) !! i = Some (Z.of_nat i)).
    { apply range_lookup. fold d. lia. }
    destruct (Forall2_lookup_lr _ _ _ _ _ _ HF Hr Hst) as (m & Hm & Hb).
    destruct (Hmax i) as [Hm' _]; [lia|].
    rewrite (getitem_lookup _ _ _ Hm') in Hm. by injection Hm as <-.
  - unfold XRayDataset.center_patch_starts, lift.
    rewrite (comprehension_ok _ _ (λ i : nat, (sh !!! i - ps !!! i) / 2)).
    + eexists _, _. split; [reflexivity|]. fold d.
      split; [by rewrite length_fmap, length_seq|]. split; [|done].
      intros i st Hst. rewrite list_lookup_fmap in Hst.
      destruct (seq 0 d !! i) as [j|] eqn:Hj; [|done].
      apply lookup_seq in Hj as [-> Hi]. cbn in Hst. injection Hst as <-.
      destruct (Hmax i) as [_ Hp]; [done|].
      split; [apply Z.div_pos; lia|]. apply Z.div_lt_upper_bound; lia.
    + intros i Hi. destruct (Hmax i) as [Hm _]; [done|].
      by rewrite (getitem_lookup _ _ _ Hm).
Qed.

End PatchSpec.

(** The slices of the border loop, when every tuple has an entry per axis. *)
Lemma border_slices_eq (ps pb sh starts : list Z) (dim : Z) :
  (Z.to_nat dim ≤ length ps)%nat → (Z.to_nat dim ≤ length pb)%nat →
  (Z.to_nat dim ≤ length sh)%nat → (Z.to_nat dim ≤ length starts)%nat →
  comprehension (XRayDataset.border_slice ps pb sh starts) dim
  = Ok ((λ i : nat,
          (margin_start (pb !!! i) (starts !!! i),
           ps !!! i - margin_end (pb !!! i) (starts !!! i) (ps !!! i) (sh !!! i)))
        <$> seq 0 (Z.to_nat dim)).
Proof.
  intros H1 H2 H3 H4. apply comprehension_ok. intros i Hi.
  apply border_slice_ok; apply list_lookup_lookup_total_lt; lia.
Qed.

Section Finish.

Variables (self : XRayDataset.t) (sh ps : list Z).
Let d := Z.to_nat (XRayDataset.dimension self).

Hypothesis patch_configured : XRayDataset.patch_size self = Some ps.
Hypothesis fits : patch_fits self sh.
Hypothesis ps_axes : length ps = d.
Hypothesis sh_axes : length sh = d.

Lemma border_mask_patch_shape (starts : list Z) :
  length starts = d →
  ∃ mask, XRayDataset.compute_border_mask self sh starts = Ok mask ∧ shape mask = ps.
Proof.
  intros Hstarts. destruct fits as (Hsh & Hfit). rewrite patch_configured in Hfit.
  destruct Hfit as (_ & _ & Hpos & _ & Hpb). fold d in Hpb.
  unfold XRayDataset.compute_border_mask. rewrite patch_configured.
  destruct ps as [|p ps'] eqn:Eps.
  { destruct sh; [|cbn in *; lia]. rewrite full_ok by done. by eexists. }
  destruct (XRayDataset.patch_border self) as [[|b pb]|] eqn:Hborder;
    [by rewrite full_ok; eauto| |by rewrite full_ok; eauto].
  destruct Hpb as [?|Hpb]; [done|].
  rewrite full_ok by done. cbn [mbind result_bind].
  rewrite border_slices_eq by (fold d; lia). cbn [mbind result_bind].
  unfold array_fill_slice. cbn [shape].
  rewrite length_fmap, length_seq. fold d. rewrite <- ps_axes, Nat.ltb_irrefl.
  by eexists.
Qed.

(** Lines 114-139 with a patch: what comes out for arrays of shape [sh]. *)
Lemma finish_patch_spec (data labels : ndarray Z) (g : rng) :
  shape data = sh → shape labels = sh →
  ∃ starts data' labels' mask,
    XRayDataset.finish self data labels g
    = (Ok (data', labels', mask),
       if XRayDataset.shuffle self then Rng (stream g) (cursor g + d) else g) ∧
    length starts = d ∧
    (∀ (i : nat) st, starts !! i = Some st → 0 ≤ st < sh !!! i - ps !!! i) ∧
    shape data' = 1 :: ps ∧ shape labels' = ps ∧ shape mask = ps ∧
    XRayDataset.compute_border_mask self sh starts = Ok mask ∧
    ∀ c idx, length idx = d →
      item data' (c :: idx) = item data (zip_with Z.add starts idx) ∧
      item labels' idx = item labels (zip_with Z.add starts idx).
Proof.
  intros Hdata Hlabels.
  destruct (choose_patch_starts_spec self sh ps patch_configured fits g)
    as (starts & g' & Hc & Hlen & Hrange & ->). fold d in Hlen.
  destruct (border_mask_patch_shape starts Hlen) as (mask & Hmask & Hmshape).
  pose proof fits as (_ & Hfit). rewrite patch_configured in Hfit.
  destruct Hfit as (_ & _ & Hpos & _).
  destruct (sliced_patch sh ps starts) as [Hshape Hposn]; [lia|lia| |].
  { intros i st n p Hst Hn Hp. specialize (Hrange i st Hst).
    rewrite (list_lookup_total_correct _ _ _ Hn),
            (list_lookup_total_correct _ _ _ Hp) in Hrange.
    rewrite Forall_forall in Hpos.
    assert (0 ≤ p) by (apply Hpos; by eapply list_elem_of_lookup_2). lia. }
  set (slices := zip_with (λ start size, (start, start + size)) starts ps) in *.
  assert (Hsl : (length slices ≤ length sh)%nat).
  { unfold slices. rewrite length_zip_with. lia. }
  eexists starts, _, _, mask. split.
  - unfold XRayDataset.finish. rewrite Hdata, patch_configured.
    unfold mbind, py_bind, lift, mret, py_ret. rewrite Hc. fold slices.
    unfold array_slice. rewrite Hdata, Hlabels.
    destruct (Nat.ltb_spec (length sh) (length slices)); [lia|].
    rewrite Hmask. reflexivity.
  - cbn [unsqueeze0 shape item]. rewrite Hshape.
    do 6 (split; [done|]). intros c idx Hidx. cbn [tail].
    by rewrite Hposn by lia.
Qed.

End Finish.

Section Getitem.

Variables (disk : h5file) (self : XRayDataset.t) (sh : list Z).
Let sel := XRayDataset.selection self.
Let file := default disk (XRayDataset.hdf5_file self).
Let N := XRayDataset.__len__ self.

Hypothesis heights : 0 < DataSelection.num_heights sel.
Hypothesis days : 0 < DataSelection.num_days sel.
Hypothesis stored : Forall (sample_stored self file sh) (DataSelection.sample_list sel).

(** An index of [-N, N) resolves and loads; what is left is [finish]. *)
Lemma getitem_loads (idx : Z) :
  - N ≤ idx < N →
  ∃ point data labels,
    XRayDataset.resolve_index sel idx = Ok point ∧
    XRayDataset.load self file point = Ok (data, labels) ∧
    shape data = sh ∧ shape labels = sh ∧
    ∀ g, XRayDataset.__getitem__ disk idx (self, g)
         = let '(r, g') := XRayDataset.finish self data labels g in
           (r, (XRayDataset.open_file disk self, g')).
Proof.
  intros Hidx.
  destruct (resolve_index_in_range _ heights days idx Hidx)
    as (s & dy & h & Hres & Hs & Hd & Hh).
  rewrite Forall_forall in stored.
  destruct (load_ok self file sh s dy h) as (data & labels & Hload & Hsd & Hsl).
  - by apply stored.
  - unfold DataSelection.num_days in Hd. fold sel. lia.
  - unfold DataSelection.num_heights in Hh. fold sel. lia.
  - exists (s, dy, h), data, labels. repeat split; try done.
    intros g. rewrite getitem_unfold. fold sel file. rewrite Hres.
    cbn [mbind result_bind]. by rewrite Hload.
Qed.

End Getitem.

(** ** What [__getitem__] returns *)

Lemma constructed_shuffle (self : XRayDataset.t) :
  constructed self → XRayDataset.shuffle self = true.
Proof.
  induction 1 as [|disk idx self g _ IH]; [apply init_shuffle|].
  by rewrite getitem_shuffle.
Qed.

(** The example file holds both samples of [selection_2d] as 20 x 20 points. *)
Lemma disk_ab_stored (self : XRayDataset.t) :
  XRayDataset.selection self = selection_2d → XRayDataset.dimension self = 2 →
  XRayDataset.hdf5_file self = None →
  Forall (sample_stored self (default disk_ab (XRayDataset.hdf5_file self)) [20; 20])
         (DataSelection.sample_list (XRayDataset.selection self)).
Proof.
  intros Hsel Hdim Hfile. rewrite Hsel, Hfile.
  assert (H : ∀ s, s = "a" ∨ s = "b" → sample_stored self disk_ab [20; 20] s).
  { intros s Hs.
    exists [("data", LinkDataset (zeros [2; 2; 20; 20]));
            ("labels", LinkDataset (zeros [2; 2; 20; 20]))],
      (zeros [2; 2; 20; 20]), (zeros [2; 2; 20; 20]), 2.
    rewrite Hsel, Hdim.
    split; [by destruct Hs as [-> | ->]|].
    repeat split; try reflexivity; simpl; try lia.
    exists 2. repeat split; simpl; lia. }
  repeat constructor; apply H; auto.
Qed.

Lemma dataset_2d_patches_fits : patch_fits dataset_2d_patches [20; 20].
Proof.
  split; [repeat constructor; lia|]. simpl.
  split; [lia|]. split; [lia|]. split; [repeat constructor; lia|].
  split; [|right; simpl; lia].
  intros [|[|i]] n p Hi; simpl; intros [= <-] [= <-]; lia.
Qed.







(** X4: on a dataset the class produced, a successful call with a patch size
    draws exactly one random number per axis: the generator's cursor moves
    by [dimension] and its stream is unchanged. *)
Theorem getitem_draws_per_axis (disk : h5file) (self : XRayDataset.t) (sh ps : list Z)
    (idx : Z) (g : rng) :
  let sel := XRayDataset.selection self in
  let file := default disk (XRayDataset.hdf5_file self) in
  constructed self →
  0 < DataSelection.num_heights sel → 0 < DataSelection.num_days sel →
  Forall (sample_stored self file sh) (DataSelection.sample_list sel) →
  patch_fits self sh →
  XRayDataset.patch_size self = Some ps →
  length ps = Z.to_nat (XRayDataset.dimension self) →
  length sh = Z.to_nat (XRayDataset.dimension self) →
  - XRayDataset.__len__ self ≤ idx < XRayDataset.__len__ self →
  (XRayDataset.__getitem__ disk idx (self, g)).2.2
  = Rng (stream g) (cursor g + Z.to_nat (XRayDataset.dimension self)).
Proof.
  intros sel file Hc Hh Hd Hstored Hfits Hps Hlps Hlsh Hidx.
  destruct (getitem_loads disk self sh Hh Hd Hstored idx Hidx)
    as (point & data & labels & _ & _ & Hsd & Hsl & Hget).
  destruct (finish_patch_spec self sh ps Hps Hfits Hlps Hlsh data labels g Hsd Hsl)
    as (starts & data' & labels' & mask & Hfin & _).
  rewrite Hget, Hfin, (constructed_shuffle self Hc). by cbn.
Qed.

Lemma getitem_draws_per_axis_witness :
  (XRayDataset.__getitem__ disk_ab 5 (dataset_2d_patches, rng0)).2.2
  = Rng (stream rng0) (cursor rng0 + Z.to_nat (XRayDataset.dimension dataset_2d_patches)).
Proof.
  apply (getitem_draws_per_axis disk_ab dataset_2d_patches [20; 20] [10; 10] 5 rng0).
  - apply constructed_init.
  - reflexivity.
  - reflexivity.
  - by apply disk_ab_stored.
  - apply dataset_2d_patches_fits.
  - reflexivity.
  - reflexivity.
  - reflexivity.
  - vm_compute. split; [discriminate | reflexivity].
Defined.

(** X5: the file is opened by the first call and never again: after any
    call, failed or not, the handle is set, a later call leaves the object as
    it is and reads the handle it finds, whatever the file then holds; the
    configuration of the object is never changed. *)
Theorem getitem_opens_file_once (disk disk' : h5file) (idx idx' : Z)
    (self : XRayDataset.t) (g g' : rng) :
  let self1 := (XRayDataset.__getitem__ disk idx (self, g)).2.1 in
  is_Some (XRayDataset.hdf5_file self1) ∧
  (XRayDataset.hdf5_file self = None → XRayDataset.hdf5_file self1 = Some disk) ∧
  XRayDataset.selection self1 = XRayDataset.selection self ∧
  XRayDataset.patch_size self1 = XRayDataset.patch_size self ∧
  XRayDataset.patch_border self1 = XRayDataset.patch_border self ∧
  XRayDataset.dimension self1 = XRayDataset.dimension self ∧
  (XRayDataset.__getitem__ disk' idx' (self1, g')).2.1 = self1 ∧
  (XRayDataset.__getitem__ disk' idx' (self1, g')).1
  = (XRayDataset.__getitem__ disk idx' (self1, g')).1.
Proof.
  intros self1.
  assert (E : self1 = XRayDataset.open_file disk self).
  { unfold self1. rewrite getitem_unfold.
    destruct (_ ≫= _) as [[data labels]|e]; [destruct (XRayDataset.finish _ _ _ _)|];
      reflexivity. }
  assert (E' : ∀ d, XRayDataset.open_file d self1 = self1).
  { intros d. rewrite E. unfold XRayDataset.open_file.
    destruct (XRayDataset.hdf5_file self) eqn:Hf; cbn; by rewrite ?Hf. }
  assert (Hopen : ∀ d i, (XRayDataset.__getitem__ d i (self1, g')).2.1 = self1).
  { intros d i. rewrite getitem_unfold, E'.
    destruct (_ ≫= _) as [[data labels]|e]; [destruct (XRayDataset.finish _ _ _ _)|];
      reflexivity. }
  assert (Hsome : is_Some (XRayDataset.hdf5_file self1)).
  { rewrite E. unfold XRayDataset.open_file.
    destruct (XRayDataset.hdf5_file self) eqn:Hf; cbn; [by rewrite Hf|done]. }
  split; [exact Hsome|].
  split. { intros Hf. rewrite E. unfold XRayDataset.open_file. by rewrite Hf. }
  do 4 (split; [rewrite E; unfold XRayDataset.open_file;
                by destruct (XRayDataset.hdf5_file self)|]).
  split; [apply Hopen|].
  rewrite !getitem_unfold. destruct Hsome as [f Hf]. rewrite Hf. cbn [default].
  destruct (_ ≫= _) as [[data labels]|e]; [destruct (XRayDataset.finish _ _ _ _)|];
    reflexivity.
Qed.

(** ** Border mask: interior and edges *)

Lemma in_bounds_lookup (sh idx : list Z) (i : nat) (n k : Z) :
  in_bounds sh idx = true → sh !! i = Some n → idx !! i = Some k → 0 ≤ k < n.
Proof.
  revert idx i. induction sh as [|m sh IH]; intros [|j idx] i; cbn; try done.
  intros H. apply andb_prop in H as [H1 H2]. apply andb_prop in H1 as [Ha Hb].
  destruct i as [|i]; cbn.
  - intros [= <-] [= <-]. lia.
  - by apply IH.
Qed.

(** The mask of a configured patch and border, written out. *)
Lemma compute_border_mask_eq (self : XRayDataset.t) (ps pb sh starts : list Z) :
  XRayDataset.patch_size self = Some ps → ps ≠ [] →
  XRayDataset.patch_border self = Some pb → pb ≠ [] →
  Forall (λ n, 0 ≤ n) ps →
  length ps = Z.to_nat (XRayDataset.dimension self) →
  (length ps ≤ length pb)%nat → (length ps ≤ length sh)%nat →
  (length ps ≤ length starts)%nat →
  XRayDataset.compute_border_mask self sh starts
  = Ok (NdArray ps (λ idx,
      if in_slices ps
           ((λ i : nat,
              (margin_start (pb !!! i) (starts !!! i),
               ps !!! i - margin_end (pb !!! i) (starts !!! i) (ps !!! i) (sh !!! i)))
            <$> seq 0 (length ps)) idx
      then true else false)).
Proof.
  intros Hps Hne Hpb Hne' Hpos Hdim H1 H2 H3.
  unfold XRayDataset.compute_border_mask. rewrite Hps, Hpb.
  destruct ps as [|p ps']; [done|]. destruct pb as [|b pb']; [done|].
  rewrite full_ok by done. cbn [mbind result_bind].
  rewrite border_slices_eq by lia. cbn [mbind result_bind].
  unfold array_fill_slice. cbn [shape item].
  rewrite length_fmap, length_seq, <- Hdim, Nat.ltb_irrefl. reflexivity.
Qed.

(** Membership in the slices of [compute_border_mask_eq], axis by axis. *)
Lemma border_slices_lookup (ps pb sh starts idx : list Z) :
  length idx = length ps →
  (length ps ≤ length pb)%nat → (length ps ≤ length sh)%nat →
  (length ps ≤ length starts)%nat →
  in_slices ps
    ((λ i : nat,
       (margin_start (pb !!! i) (starts !!! i),
        ps !!! i - margin_end (pb !!! i) (starts !!! i) (ps !!! i) (sh !!! i)))
     <$> seq 0 (length ps)) idx = true ↔
  ∀ (i : nat) size border pstart extent k,
    ps !! i = Some size → pb !! i = Some border → starts !! i = Some pstart →
    sh !! i = Some extent → idx !! i = Some k →
    in_slice size (margin_start border pstart,
                   size - margin_end border pstart size extent) k = true.
Proof.
  intros Hlen H1 H2 H3.
  rewrite in_slices_lookup by (rewrite ?length_fmap, ?length_seq; done).
  split.
  - intros H i size border pstart extent k Hs Hb Hp He Hk.
    apply (H i size _ k Hs); [|done].
    rewrite list_lookup_fmap, lookup_seq_lt by (by eapply lookup_lt_Some). cbn.
    by rewrite (list_lookup_total_correct _ _ _ Hs), (list_lookup_total_correct _ _ _ Hb),
      (list_lookup_total_correct _ _ _ Hp), (list_lookup_total_correct _ _ _ He).
  - intros H i n s k Hs Hsl Hk.
    pose proof (lookup_lt_Some _ _ _ Hs) as Hi.
    destruct (lookup_lt_is_Some_2 pb i) as [border Hb]; [lia|].
    destruct (lookup_lt_is_Some_2 starts i) as [pstart Hp]; [lia|].
    destruct (lookup_lt_is_Some_2 sh i) as [extent He]; [lia|].
    specialize (H i n border pstart extent k Hs Hb Hp He Hk).
    rewrite list_lookup_fmap, lookup_seq_lt in Hsl by done. cbn in Hsl.
    injection Hsl as <-.
    by rewrite (list_lookup_total_correct _ _ _ Hs), (list_lookup_total_correct _ _ _ Hb),
      (list_lookup_total_correct _ _ _ Hp), (list_lookup_total_correct _ _ _ He).
Qed.

(** X6: for a patch in the interior of the array (on every axis the border
    is at most the patch start and at most the room behind the patch), the
    mask is true exactly where every coordinate lies in
    [border, patch_size - border): the border is excluded on both sides. *)
Theorem border_mask_interior (self : XRayDataset.t) (ps pb sh starts : list Z) :
  XRayDataset.patch_size self = Some ps → ps ≠ [] →
  XRayDataset.patch_border self = Some pb → pb ≠ [] →
  length ps = Z.to_nat (XRayDataset.dimension self) →
  length pb = length ps → length sh = length ps → length starts = length ps →
  (∀ (i : nat) size border pstart extent,
     ps !! i = Some size → pb !! i = Some border → starts !! i = Some pstart →
     sh !! i = Some extent →
     0 ≤ border ≤ size ∧ border ≤ pstart ∧ border ≤ extent - (pstart + size)) →
  ∃ mask,
    XRayDataset.compute_border_mask self sh starts = Ok mask ∧
    shape mask = ps ∧
    ∀ idx, in_bounds ps idx = true →
      (item mask idx = true ↔
       ∀ (i : nat) size border k,
         ps !! i = Some size → pb !! i = Some border → idx !! i = Some k →
         border ≤ k < size - border).
Proof.
  intros Hps Hne Hpb Hne' Hdim Hlb Hls Hlp Hint.
  assert (Hpos : Forall (λ n, 0 ≤ n) ps).
  { apply Forall_lookup. intros i size Hs.
    pose proof (lookup_lt_Some _ _ _ Hs) as Hi.
    destruct (lookup_lt_is_Some_2 pb i) as [border Hb]; [lia|].
    destruct (lookup_lt_is_Some_2 starts i) as [pstart Hp]; [lia|].
    destruct (lookup_lt_is_Some_2 sh i) as [extent He]; [lia|].
    destruct (Hint i size border pstart extent) as [? _]; [done..|]. lia. }
  eexists. split; [apply compute_border_mask_eq; (done || lia)|]. split; [done|].
  intros idx Hidx. cbn [item].
  pose proof (in_bounds_length _ _ Hidx) as Hlen.
  assert (Hiff : ∀ b : bool, (if b then true else false) = true ↔ b = true)
    by (by intros []).
  rewrite Hiff, border_slices_lookup by lia. split.
  - intros H i size border k Hs Hb Hk.
    pose proof (lookup_lt_Some _ _ _ Hs) as Hi.
    destruct (lookup_lt_is_Some_2 starts i) as [pstart Hp]; [lia|].
    destruct (lookup_lt_is_Some_2 sh i) as [extent He]; [lia|].
    specialize (H i size border pstart extent k Hs Hb Hp He Hk).
    destruct (Hint i size border pstart extent) as (H1 & H2 & H3); [done..|].
    unfold margin_start, margin_end in H.
    destruct (Z.gtb_spec border pstart); [lia|].
    destruct (Z.gtb_spec border (extent - (pstart + size))); [lia|].
    apply in_slice_interval in H; [done|lia|lia|].
    by eapply in_bounds_lookup.
  - intros H i size border pstart extent k Hs Hb Hp He Hk.
    specialize (H i size border k Hs Hb Hk).
    destruct (Hint i size border pstart extent) as (H1 & H2 & H3); [done..|].
    unfold margin_start, margin_end.
    destruct (Z.gtb_spec border pstart); [lia|].
    destruct (Z.gtb_spec border (extent - (pstart + size))); [lia|].
    apply in_slice_interval; [lia|lia| |done].
    by eapply in_bounds_lookup.
Qed.

Lemma border_mask_interior_witness :
  ∃ mask,
    XRayDataset.compute_border_mask one_axis_dataset [20] [5] = Ok mask ∧
    shape mask = [10] ∧
    ∀ idx, in_bounds [10] idx = true →
      (item mask idx = true ↔
       ∀ (i : nat) size border k,
         [10] !! i = Some size → [3] !! i = Some border → idx !! i = Some k →
         border ≤ k < size - border).
Proof.
  apply (border_mask_interior one_axis_dataset [10] [3] [20] [5]).
  - reflexivity.
  - discriminate.
  - reflexivity.
  - discriminate.
  - reflexivity.
  - reflexivity.
  - reflexivity.
  - reflexivity.
  - intros [|i] size border pstart extent; simpl; [|discriminate].
    intros [= <-] [= <-] [= <-] [= <-]. lia.
Defined.

(** X7: on an axis whose border is positive, the first and the last
    position of the patch are never included in the mask, wherever the patch
    lies in the array (at an edge too). *)
Theorem border_mask_excludes_ends (self : XRayDataset.t) (ps pb sh starts : list Z) :
  XRayDataset.patch_size self = Some ps → ps ≠ [] →
  XRayDataset.patch_border self = Some pb → pb ≠ [] →
  Forall (λ n, 0 ≤ n) ps →
  length ps = Z.to_nat (XRayDataset.dimension self) →
  length pb = length ps → length sh = length ps → length starts = length ps →
  ∃ mask,
    XRayDataset.compute_border_mask self sh starts = Ok mask ∧
    ∀ idx (i : nat) size border k,
      in_bounds ps idx = true → item mask idx = true →
      ps !! i = Some size → pb !! i = Some border → idx !! i = Some k →
      0 < border → 0 < k < size - 1.
Proof.
  intros Hps Hne Hpb Hne' Hpos Hdim Hlb Hls Hlp.
  eexists. split; [apply compute_border_mask_eq; (done || lia)|].
  intros idx i size border k Hidx Hitem Hs Hb Hk Hborder. cbn [item] in Hitem.
  pose proof (in_bounds_length _ _ Hidx) as Hlen.
  destruct (in_slices _ _ idx) eqn:E; [|done].
  rewrite border_slices_lookup in E by lia.
  pose proof (lookup_lt_Some _ _ _ Hs) as Hi.
  destruct (lookup_lt_is_Some_2 starts i) as [pstart Hp]; [lia|].
  destruct (lookup_lt_is_Some_2 sh i) as [extent He]; [lia|].
  specialize (E i size border pstart extent k Hs Hb Hp He Hk).
  pose proof (in_bounds_lookup _ _ _ _ _ Hidx Hs Hk) as Hkb.
  unfold in_slice, slice_bound, margin_start, margin_end in E. cbn [fst snd] in E.
  apply andb_prop in E as [E1 E2]. apply Z.leb_le in E1. apply Z.ltb_lt in E2.
  destruct (Z.gtb_spec border pstart),
           (Z.gtb_spec border (extent - (pstart + size)));
    repeat match goal with
           | H : context [?a <? 0] |- _ => destruct (Z.ltb_spec a 0)
           end; lia.
Qed.

Lemma border_mask_excludes_ends_witness :
  ∃ mask,
    XRayDataset.compute_border_mask one_axis_dataset [20] [0] = Ok mask ∧
    ∀ idx (i : nat) size border k,
      in_bounds [10] idx = true → item mask idx = true →
      [10] !! i = Some size → [3] !! i = Some border → idx !! i = Some k →
      0 < border → 0 < k < size - 1.
Proof.
  apply (border_mask_excludes_ends one_axis_dataset [10] [3] [20] [0]).
  - reflexivity.
  - discriminate.
  - reflexivity.
  - discriminate.
  - repeat constructor; lia.
  - reflexivity.
  - reflexivity.
  - reflexivity.
  - reflexivity.
Defined.

(** ** Index resolution: ranges and round trips *)

(** A resolved point lies in the ranges of its selection. *)
Lemma resolve_index_ok_inv (sel : DataSelection.t) (idx : Z) (s : string) (d h : Z) :
  0 < DataSelection.num_heights sel → 0 < DataSelection.num_days sel →
  XRayDataset.resolve_index sel idx = Ok (s, d, h) →
  s ∈ DataSelection.sample_list sel ∧
  (DataSelection.day_range sel).1 ≤ d < (DataSelection.day_range sel).2 ∧
  (DataSelection.height_range sel).1 ≤ h < (DataSelection.height_range sel).2 ∧
  - DataSelection.num_points sel ≤ idx < DataSelection.num_points sel.
Proof.
  intros Hh Hd Hres.
  destruct (decide (- DataSelection.num_points sel ≤ idx < DataSelection.num_points sel))
    as [Hin|Hout].
  - destruct (resolve_index_in_range sel Hh Hd idx Hin) as (s' & d' & h' & E & Hs & H1 & H2).
    rewrite Hres in E. injection E as <- <- <-.
    unfold DataSelection.num_days, DataSelection.num_heights in *.
    repeat split; try done; lia.
  - rewrite (resolve_index_out_of_range sel Hh Hd idx Hout) in Hres. discriminate.
Qed.

(** X8: whenever an index resolves, it resolves inside the selection: the
    sample is one of [sample_list], the day lies in [day_range], the height
    in [height_range], and the index lies in [-num_points, num_points). *)
Theorem resolve_index_within_selection (sel : DataSelection.t) (idx : Z)
    (s : string) (d h : Z) :
  0 < DataSelection.num_heights sel → 0 < DataSelection.num_days sel →
  XRayDataset.resolve_index sel idx = Ok (s, d, h) →
  s ∈ DataSelection.sample_list sel ∧
  (DataSelection.day_range sel).1 ≤ d < (DataSelection.day_range sel).2 ∧
  (DataSelection.height_range sel).1 ≤ h < (DataSelection.height_range sel).2 ∧
  - DataSelection.num_points sel ≤ idx < DataSelection.num_points sel.
Proof. apply resolve_index_ok_inv. Qed.

Lemma resolve_index_within_selection_witness :
  "b" ∈ DataSelection.sample_list selection_2d ∧
  (DataSelection.day_range selection_2d).1 ≤ 1 < (DataSelection.day_range selection_2d).2 ∧
  (DataSelection.height_range selection_2d).1 ≤ 1
    < (DataSelection.height_range selection_2d).2 ∧
  - DataSelection.num_points selection_2d ≤ -1 < DataSelection.num_points selection_2d.
Proof.
  apply (resolve_index_within_selection selection_2d (-1) "b" 1 1); reflexivity.
Defined.

Lemma resolve_index_2d_flat_witness :
  0 ≤ (Z.of_nat 1 * DataSelection.num_days selection_2d
       + (1 - (DataSelection.day_range selection_2d).1))
      * DataSelection.num_heights selection_2d
      + (0 - (DataSelection.height_range selection_2d).1)
    < DataSelection.num_points selection_2d ∧
  XRayDataset.resolve_index selection_2d
    ((Z.of_nat 1 * DataSelection.num_days selection_2d
      + (1 - (DataSelection.day_range selection_2d).1))
     * DataSelection.num_heights selection_2d
     + (0 - (DataSelection.height_range selection_2d).1))
  = Ok ("b", 1, 0).
Proof.
  apply (resolve_index_2d_flat selection_2d); try reflexivity;
    vm_compute; (split; [discriminate | reflexivity]).
Defined.

Lemma resolve_index_2d_unique_witness :
  ∃ i : nat,
    DataSelection.sample_list selection_2d !! i = Some "b" ∧
    (DataSelection.day_range selection_2d).1 ≤ 1
      < (DataSelection.day_range selection_2d).1 + DataSelection.num_days selection_2d ∧
    (DataSelection.height_range selection_2d).1 ≤ 0
      < (DataSelection.height_range selection_2d).1
        + DataSelection.num_heights selection_2d ∧
    6 = (Z.of_nat i * DataSelection.num_days selection_2d
         + (1 - (DataSelection.day_range selection_2d).1))
        * DataSelection.num_heights selection_2d
        + (0 - (DataSelection.height_range selection_2d).1).
Proof.
  apply (resolve_index_2d_unique selection_2d); try reflexivity.
  vm_compute. split; [discriminate | reflexivity].
Defined.

Section Resolve3D.

Variable sel : DataSelection.t.
Let nh := DataSelection.num_heights sel.
Let nd := DataSelection.num_days sel.
Let lo_d := (DataSelection.day_range sel).1.
Let lo_h := (DataSelection.height_range sel).1.

Hypothesis not_two_dimensions : DataSelection.dimension sel ≠ 2.
Hypothesis nd_pos : 0 < nd.

Lemma points_per_sample_3d : DataSelection.points_per_sample sel = nd.
Proof.
  unfold DataSelection.points_per_sample.
  by destruct (Z.eqb_spec (DataSelection.dimension sel) 2).
Qed.

(** X9: outside two dimensions a sample has [num_days] points, but the day
    of a point is its position divided by [num_heights]: a resolved point
    satisfies [(day - day_lo) * num_heights + (height - height_lo) < num_days],
    so with more than one height the later days are never reached. *)
Theorem resolve_index_3d_days (idx : Z) (s : string) (d h : Z) :
  0 < nh →
  XRayDataset.resolve_index sel idx = Ok (s, d, h) →
  0 ≤ d - lo_d ∧ 0 ≤ h - lo_h < nh ∧ (d - lo_d) * nh + (h - lo_h) < nd.
Proof.
  intros Hnh. unfold XRayDataset.resolve_index.
  rewrite points_per_sample_3d. fold nh nd.
  rewrite divmod_ok by lia. cbn [mbind result_bind].
  destruct (getitem _ _) as [s'|e]; [|discriminate]. cbn [mbind result_bind].
  rewrite divmod_ok by lia. cbn [mbind result_bind]. fold lo_d lo_h.
  intros [= _ <- <-].
  pose proof (Z.mod_pos_bound idx nd nd_pos) as Hm.
  pose proof (Z.mod_pos_bound (idx mod nd) nh Hnh) as Hm'.
  pose proof (Z.div_mod (idx mod nd) nh ltac:(lia)) as E.
  assert (0 ≤ idx mod nd / nh) by (apply Z.div_pos; lia).
  split; [lia|]. split; [lia|]. nia.
Qed.

(** X10: outside two dimensions and with a single height, the resolution is
    one-to-one between [0, num_points) and the (position in [sample_list],
    day) pairs: the point at position [i] and day [d] has index
    [i * num_days + (d - day_lo)], and an index resolves to no other point. *)
Theorem resolve_index_single_height :
  nh = 1 →
  (∀ (i : nat) (s : string) (d : Z),
     DataSelection.sample_list sel !! i = Some s → lo_d ≤ d < lo_d + nd →
     0 ≤ Z.of_nat i * nd + (d - lo_d) < DataSelection.num_points sel ∧
     XRayDataset.resolve_index sel (Z.of_nat i * nd + (d - lo_d)) = Ok (s, d, lo_h)) ∧
  (∀ (idx : Z) (s : string) (d h : Z),
     0 ≤ idx < DataSelection.num_points sel →
     XRayDataset.resolve_index sel idx = Ok (s, d, h) →
     ∃ i : nat, DataSelection.sample_list sel !! i = Some s ∧
                lo_d ≤ d < lo_d + nd ∧ h = lo_h ∧ idx = Z.of_nat i * nd + (d - lo_d)).
Proof.
  intros Hnh. split.
  - intros i s d Hs Hd. pose proof (lookup_lt_Some _ _ _ Hs) as Hi.
    split.
    + unfold DataSelection.num_points, DataSelection.num_samples.
      rewrite points_per_sample_3d. fold nd. nia.
    + assert (Hdiv : (Z.of_nat i * nd + (d - lo_d)) / nd = Z.of_nat i).
      { symmetry. apply (Z.div_unique _ _ _ (d - lo_d)); lia. }
      assert (Hmod : (Z.of_nat i * nd + (d - lo_d)) mod nd = d - lo_d).
      { symmetry. apply (Z.mod_unique _ _ (Z.of_nat i)); lia. }
      unfold XRayDataset.resolve_index. rewrite points_per_sample_3d. fold nh nd.
      rewrite divmod_ok by lia. cbn [mbind result_bind].
      rewrite Hdiv, Hmod, (getitem_lookup _ _ _ Hs). cbn [mbind result_bind].
      rewrite Hnh, divmod_ok by lia. cbn [mbind result_bind].
      rewrite Z.div_1_r, Z.mod_1_r. fold lo_d lo_h. do 3 f_equal; lia.
  - intros idx s d h Hidx. unfold XRayDataset.resolve_index.
    unfold DataSelection.num_points in Hidx.
    rewrite points_per_sample_3d in Hidx |- *. fold nh nd in Hidx |- *.
    rewrite divmod_ok by lia. cbn [mbind result_bind].
    assert (Hq : 0 ≤ idx / nd < Z.of_nat (length (DataSelection.sample_list sel))).
    { unfold DataSelection.num_samples in Hidx.
      split; [apply Z.div_pos; lia|]. apply Z.div_lt_upper_bound; lia. }
    destruct (getitem_in (DataSelection.sample_list sel) (idx / nd) Hq) as (s' & -> & Hs').
    cbn [mbind result_bind]. rewrite Hnh, divmod_ok by lia. cbn [mbind result_bind].
    rewrite Z.div_1_r, Z.mod_1_r. fold lo_d lo_h.
    intros [= -> <- <-]. exists (Z.to_nat (idx / nd)).
    pose proof (Z.mod_pos_bound idx nd nd_pos) as Hm.
    pose proof (Z.div_mod idx nd ltac:(lia)) as E.
    split; [done|]. split; [lia|]. split; [lia|]. rewrite Z2Nat.id by lia. lia.
Qed.

End Resolve3D.


Lemma resolve_index_3d_days_witness :
  0 ≤ 0 - (DataSelection.day_range selection_3d).1 ∧
  0 ≤ 1 - (DataSelection.height_range selection_3d).1
    < DataSelection.num_heights selection_3d ∧
  (0 - (DataSelection.day_range selection_3d).1) * DataSelection.num_heights selection_3d
  + (1 - (DataSelection.height_range selection_3d).1)
  < DataSelection.num_days selection_3d.
Proof.
  apply (resolve_index_3d_days selection_3d ltac:(discriminate) ltac:(reflexivity)
           1 "a" 0 1); reflexivity.
Defined.

Lemma resolve_index_single_height_witness :
  (∀ (i : nat) (s : string) (d : Z),
     DataSelection.sample_list selection_volumes !! i = Some s →
     (DataSelection.day_range selection_volumes).1 ≤ d
       < (DataSelection.day_range selection_volumes).1
         + DataSelection.num_days selection_volumes →
     0 ≤ Z.of_nat i * DataSelection.num_days selection_volumes
         + (d - (DataSelection.day_range selection_volumes).1)
       < DataSelection.num_points selection_volumes ∧
     XRayDataset.resolve_index selection_volumes
       (Z.of_nat i * DataSelection.num_days selection_volumes
        + (d - (DataSelection.day_range selection_volumes).1))
     = Ok (s, d, (DataSelection.height_range selection_volumes).1)) ∧
  (∀ (idx : Z) (s : string) (d h : Z),
     0 ≤ idx < DataSelection.num_points selection_volumes →
     XRayDataset.resolve_index selection_volumes idx = Ok (s, d, h) →
     ∃ i : nat, DataSelection.sample_list selection_volumes !! i = Some s ∧
                (DataSelection.day_range selection_volumes).1 ≤ d
                  < (DataSelection.day_range selection_volumes).1
                    + DataSelection.num_days selection_volumes ∧
                h = (DataSelection.height_range selection_volumes).1 ∧
                idx = Z.of_nat i * DataSelection.num_days selection_volumes
                      + (d - (DataSelection.day_range selection_volumes).1)).
Proof.
  apply (resolve_index_single_height selection_volumes).
  - discriminate.
  - reflexivity.
  - reflexivity.
Defined.

(** ** More on the split *)

(** What [prepare_data] returns when it returns. *)
Lemma prepare_data_ok (rt : runtime) (disk : h5file) (self : XRayDataModule.t)
    (ds : XRayDataModule.datasets) :
  XRayDataModule.prepare_data rt disk self = Ok ds →
  ∃ first rest members data total_days sh,
    XRayDataModule.split_train_val rt self
      = Ok (XRayDataModule.train ds, XRayDataModule.val ds) ∧
    get_all_group_paths disk = first :: rest ∧
    assoc first disk = Some (H5Group members) ∧
    assoc "data" members = Some (LinkDataset data) ∧
    shape data = total_days :: sh ∧
    let test_samples :=
      elements ((list_to_set (get_all_group_paths disk) : gset string)
                  ∖ list_to_set (XRayDataModule.train_samples self)) in
    let test_days := ((XRayDataModule.train_day_range self).2, total_days) in
    let sel samples days :=
      DataSelection.Make samples (XRayDataModule.height_range self) days
                         (XRayDataModule.dimension self) in
    XRayDataModule.test_strict ds
      = XRayDataModule.new_dataset self (sel test_samples test_days) "test_strict" ∧
    XRayDataModule.test_overlap ds
      = [ XRayDataModule.new_dataset self
            (sel test_samples (XRayDataModule.train_day_range self))
            "test_overlap_same_days";
          XRayDataModule.new_dataset self
            (sel (XRayDataModule.train_samples self) test_days)
            "test_overlap_same_samples" ].
Proof.
  unfold XRayDataModule.prepare_data. intros H.
  apply bind_ok in H as ([tr va] & Hsplit & H).
  apply bind_ok in H as (first & Hfirst & H).
  apply bind_ok in H as (total_days & Hdays & [= <-]).
  apply bind_ok in Hdays as (g & Hg & Hdays).
  apply bind_ok in Hdays as (data & Hdata & Hshape).
  unfold h5_get in Hg. destruct (assoc first disk) as [o|] eqn:Ho; [|discriminate].
  injection Hg as ->. unfold h5_dataset in Hdata.
  destruct g as [members|]; [|discriminate].
  destruct (assoc "data" members) as [[a|]|] eqn:Hm; try discriminate.
  injection Hdata as ->.
  destruct (get_all_group_paths disk) as [|f rest] eqn:Hall; [discriminate|].
  pose proof (getitem_lookup (f :: rest) 0 f eq_refl) as E. change (Z.of_nat 0) with 0 in E.
  rewrite E in Hfirst. injection Hfirst as ->. clear E.
  destruct (shape data) as [|n sh] eqn:Hsh; [discriminate|].
  pose proof (getitem_lookup (n :: sh) 0 n eq_refl) as E. change (Z.of_nat 0) with 0 in E.
  rewrite E in Hshape. injection Hshape as ->. clear E.
  exists first, rest, members, data, total_days, sh.
  cbn [XRayDataModule.train XRayDataModule.val XRayDataModule.test_strict
       XRayDataModule.test_overlap].
  repeat split; (reflexivity || assumption).
Qed.

(** What [split_train_val] returns when it returns. *)
Lemma split_train_val_ok (rt : runtime) (self : XRayDataModule.t) (tr va : Subset.t) :
  (∀ seed n, randperm rt seed n ≡ₚ seqZ 0 n) →
  XRayDataModule.split_train_val rt self = Ok (tr, va) →
  let train_val :=
    DataSelection.Make (XRayDataModule.train_samples self) (XRayDataModule.height_range self)
      (XRayDataModule.train_day_range self) (XRayDataModule.dimension self) in
  Subset.dataset tr = XRayDataModule.new_dataset self train_val "train_val" ∧
  Subset.dataset va = XRayDataModule.new_dataset self train_val "train_val" ∧
  Subset.indices tr ++ Subset.indices va ≡ₚ seqZ 0 (DataSelection.num_points train_val).
Proof.
  intros Hperm Hsplit train_val.
  unfold XRayDataModule.split_train_val in Hsplit.
  set (n2 := int_of_float _) in Hsplit. set (n1 := _ - n2) in Hsplit.
  apply random_split_indices in Hsplit as (Hsum & Hda & Hdb & Ha & Hb).
  change (XRayDataset.__len__ _) with (DataSelection.num_points train_val) in Hsum.
  split; [exact Hda|]. split; [exact Hdb|].
  set (N := DataSelection.num_points train_val) in *. clearbody n1 n2 N.
  rewrite Ha, Hb.
  pose proof (Hperm (XRayDataModule.seed self) (n1 + n2)) as HP.
  destruct (Z.le_gt_cases 0 N) as [HN|HN].
  - rewrite list_slice_cut; [by rewrite HP, Hsum|].
    rewrite (permutation_length_seqZ _ (n1 + n2)) by done. lia.
  - rewrite seqZ_nil in HP by lia. apply Permutation_nil_r in HP.
    rewrite HP, seqZ_nil by lia. unfold list_slice.
    by rewrite !drop_nil, !take_nil.
Qed.


(** X11: the test samples are the discovered samples that are not train
    samples: the sample list of [test_strict] has no duplicates, holds no
    train sample, and holds every leaf group of the file that is not a train
    sample. *)
Theorem test_samples_partition (rt : runtime) (disk : h5file) (self : XRayDataModule.t)
    (ds : XRayDataModule.datasets) :
  XRayDataModule.prepare_data rt disk self = Ok ds →
  let test_samples :=
    DataSelection.sample_list (XRayDataset.selection (XRayDataModule.test_strict ds)) in
  NoDup test_samples ∧
  ∀ s, s ∈ test_samples ↔
       s ∈ get_all_group_paths disk ∧ s ∉ XRayDataModule.train_samples self.
Proof.
  intros H. apply prepare_data_ok in H
    as (first & rest & members & data & total_days & sh & _ & _ & _ & _ & _ & -> & _).
  cbn. split; [apply NoDup_elements|].
  intros s. rewrite elem_of_elements, elem_of_difference, !elem_of_list_to_set. done.
Qed.

Lemma test_samples_partition_witness :
  ∃ ds,
    XRayDataModule.prepare_data runtime0 disk_ab module_2d = Ok ds ∧
    let test_samples :=
      DataSelection.sample_list (XRayDataset.selection (XRayDataModule.test_strict ds)) in
    NoDup test_samples ∧
    ∀ s, s ∈ test_samples ↔
         s ∈ get_all_group_paths disk_ab ∧ s ∉ XRayDataModule.train_samples module_2d.
Proof.
  eexists. split; [reflexivity|].
  apply (test_samples_partition runtime0 disk_ab module_2d). reflexivity.
Defined.

(** X12: the test days start where the train days end and stop at the
    number of days of the first discovered sample: the day range of
    [test_strict] is [(train_day_range[1], total_days)], with [total_days]
    the leading extent of the [data] array of the first leaf group. *)
Theorem test_days_from_first_sample (rt : runtime) (disk : h5file)
    (self : XRayDataModule.t) (ds : XRayDataModule.datasets) :
  XRayDataModule.prepare_data rt disk self = Ok ds →
  ∃ first rest members data total_days sh,
    get_all_group_paths disk = first :: rest ∧
    assoc first disk = Some (H5Group members) ∧
    assoc "data" members = Some (LinkDataset data) ∧
    shape data = total_days :: sh ∧
    DataSelection.day_range (XRayDataset.selection (XRayDataModule.test_strict ds))
    = ((XRayDataModule.train_day_range self).2, total_days).
Proof.
  intros H. apply prepare_data_ok in H
    as (first & rest & members & data & total_days & sh & _ & H1 & H2 & H3 & H4 & -> & _).
  by exists first, rest, members, data, total_days, sh.
Qed.

Lemma test_days_from_first_sample_witness :
  ∃ ds,
    XRayDataModule.prepare_data runtime0 disk_ab module_2d = Ok ds ∧
    ∃ first rest members data total_days sh,
      get_all_group_paths disk_ab = first :: rest ∧
      assoc first disk_ab = Some (H5Group members) ∧
      assoc "data" members = Some (LinkDataset data) ∧
      shape data = total_days :: sh ∧
      DataSelection.day_range (XRayDataset.selection (XRayDataModule.test_strict ds))
      = ((XRayDataModule.train_day_range module_2d).2, total_days).
Proof.
  eexists. split; [reflexivity|].
  apply (test_days_from_first_sample runtime0 disk_ab module_2d). reflexivity.
Defined.

(** X13: a file without any leaf group makes [prepare_data] fail: once the
    train/val split is done, reading the first discovered sample raises
    [IndexError]. *)
Theorem prepare_data_no_samples (rt : runtime) (disk : h5file) (self : XRayDataModule.t) :
  get_all_group_paths disk = [] →
  is_ok (XRayDataModule.split_train_val rt self) = true →
  XRayDataModule.prepare_data rt disk self = Raise IndexError.
Proof.
  intros Hall Hsplit. unfold XRayDataModule.prepare_data.
  destruct (XRayDataModule.split_train_val rt self) as [[tr va]|e]; [|discriminate].
  cbn [mbind result_bind]. by rewrite Hall.
Qed.

Lemma prepare_data_no_samples_witness :
  XRayDataModule.prepare_data runtime0 [] module_2d = Raise IndexError.
Proof.
  apply (prepare_data_no_samples runtime0 [] module_2d); reflexivity.
Defined.

Section SplitDays.

Variables (rt : runtime) (disk : h5file) (self : XRayDataModule.t)
          (ds : XRayDataModule.datasets).

Hypothesis permutation : ∀ seed n, randperm rt seed n ≡ₚ seqZ 0 n.
Hypothesis prepared : XRayDataModule.prepare_data rt disk self = Ok ds.
Hypothesis heights :
  (XRayDataModule.height_range self).1 < (XRayDataModule.height_range self).2.
Hypothesis train_days :
  (XRayDataModule.train_day_range self).1 < (XRayDataModule.train_day_range self).2.
Hypothesis test_days :
  0 < DataSelection.num_days (XRayDataset.selection (XRayDataModule.test_strict ds)).

Lemma train_val_reach (s : Subset.t) (p : string * Z) :
  s = XRayDataModule.train ds ∨ s = XRayDataModule.val ds →
  subset_reaches s p →
  p.1 ∈ XRayDataModule.train_samples self ∧
  (XRayDataModule.train_day_range self).1 ≤ p.2 < (XRayDataModule.train_day_range self).2.
Proof.
  intros Hs (idx & h & Hres).
  destruct (prepare_data_ok _ _ _ _ prepared)
    as (first & rest & members & data & total_days & sh & Hsplit & _).
  destruct (split_train_val_ok _ _ _ _ permutation Hsplit) as (Hda & Hdb & _).
  unfold Subset.resolve_index in Hres. apply bind_ok in Hres as (j & _ & Hres).
  assert (Hd : Subset.dataset s = Subset.dataset (XRayDataModule.train ds)).
  { destruct Hs as [-> | ->]; [done|]. by rewrite Hda, Hdb. }
  rewrite Hd, Hda in Hres. cbn in Hres.
  apply resolve_index_ok_inv in Hres as (H1 & H2 & _);
    unfold DataSelection.num_heights, DataSelection.num_days; cbn; [done|lia..].
Qed.

Lemma test_days_reach (d : XRayDataset.t) (p : string * Z) :
  DataSelection.day_range (XRayDataset.selection d)
  = DataSelection.day_range (XRayDataset.selection (XRayDataModule.test_strict ds)) →
  DataSelection.height_range (XRayDataset.selection d) = XRayDataModule.height_range self →
  dataset_reaches d p →
  p.1 ∈ DataSelection.sample_list (XRayDataset.selection d) ∧
  (XRayDataModule.train_day_range self).2 ≤ p.2.
Proof.
  intros Hdays Hh (idx & h & Hres).
  destruct (prepare_data_ok _ _ _ _ prepared)
    as (first & rest & members & data & total_days & sh & _ & _ & _ & _ & _ & Hstrict & _).
  unfold DataSelection.num_days in test_days. rewrite <- Hdays in test_days.
  rewrite Hstrict in Hdays. cbn in Hdays.
  apply resolve_index_ok_inv in Hres as (H1 & H2 & _).
  - split; [done|]. rewrite Hdays in H2. cbn in H2. lia.
  - unfold DataSelection.num_heights. rewrite Hh. lia.
  - exact test_days.
Qed.

(** X14: [test_strict] shares no day with [train] and [val]: every point
    reached through [train] or [val] has its day inside the train day range,
    and every point reached through [test_strict] has its day at or after the
    end of that range. *)
Theorem split_days_separated :
  (∀ p, subset_reaches (XRayDataModule.train ds) p ∨
        subset_reaches (XRayDataModule.val ds) p →
        (XRayDataModule.train_day_range self).1 ≤ p.2
          < (XRayDataModule.train_day_range self).2) ∧
  (∀ p, dataset_reaches (XRayDataModule.test_strict ds) p →
        (XRayDataModule.train_day_range self).2 ≤ p.2).
Proof.
  split.
  - intros p [H|H]; eapply train_val_reach in H as [_ H]; eauto.
  - intros p H. eapply test_days_reach in H as [_ H]; [done|done|].
    destruct (prepare_data_ok _ _ _ _ prepared)
      as (first & rest & members & data & total_days & sh & _ & _ & _ & _ & _ & -> & _).
    reflexivity.
Qed.

(** X15: each half of [test_overlap] overlaps the train+val set along one
    axis only.  The first half takes the train days but no train sample; the
    second takes only train samples but no train day. *)
Theorem test_overlap_halves :
  ∃ same_days same_samples,
    XRayDataModule.test_overlap ds = [same_days; same_samples] ∧
    (∀ p, dataset_reaches same_days p →
          (p.1 ∉ XRayDataModule.train_samples self) ∧
          (XRayDataModule.train_day_range self).1 ≤ p.2
            < (XRayDataModule.train_day_range self).2) ∧
    (∀ p, dataset_reaches same_samples p →
          p.1 ∈ XRayDataModule.train_samples self ∧
          (XRayDataModule.train_day_range self).2 ≤ p.2).
Proof.
  destruct (prepare_data_ok _ _ _ _ prepared)
    as (first & rest & members & data & total_days & sh & _ & _ & _ & _ & _ & Hs & Ho).
  eexists _, _. split; [exact Ho|]. split.
  - intros p (idx & h & Hres). cbn in Hres.
    apply resolve_index_ok_inv in Hres as (H1 & H2 & _);
      unfold DataSelection.num_heights, DataSelection.num_days; cbn; [|lia..].
    cbn in H1, H2. split; [|done].
    apply elem_of_elements, elem_of_difference in H1 as [_ H1].
    by rewrite elem_of_list_to_set in H1.
  - intros p Hp. eapply test_days_reach in Hp as [H1 H2]; [done| |done].
    by rewrite Hs.
Qed.

End SplitDays.


Lemma split_days_separated_witness :
  ∃ ds,
    XRayDataModule.prepare_data runtime0 disk_ab module_2d = Ok ds ∧
    (∀ p, subset_reaches (XRayDataModule.train ds) p ∨
          subset_reaches (XRayDataModule.val ds) p →
          (XRayDataModule.train_day_range module_2d).1 ≤ p.2
            < (XRayDataModule.train_day_range module_2d).2) ∧
    (∀ p, dataset_reaches (XRayDataModule.test_strict ds) p →
          (XRayDataModule.train_day_range module_2d).2 ≤ p.2).
Proof.
  eexists. split; [reflexivity|].
  apply (split_days_separated runtime0 disk_ab module_2d).
  - intros seed n. reflexivity.
  - reflexivity.
  - reflexivity.
  - reflexivity.
  - reflexivity.
Defined.

Lemma test_overlap_halves_witness :
  ∃ ds,
    XRayDataModule.prepare_data runtime0 disk_ab module_2d = Ok ds ∧
    ∃ same_days same_samples,
      XRayDataModule.test_overlap ds = [same_days; same_samples] ∧
      (∀ p, dataset_reaches same_days p →
            (p.1 ∉ XRayDataModule.train_samples module_2d) ∧
            (XRayDataModule.train_day_range module_2d).1 ≤ p.2
              < (XRayDataModule.train_day_range module_2d).2) ∧
      (∀ p, dataset_reaches same_samples p →
            p.1 ∈ XRayDataModule.train_samples module_2d ∧
            (XRayDataModule.train_day_range module_2d).2 ≤ p.2).
Proof.
  eexists. split; [reflexivity|].
  apply (test_overlap_halves runtime0 disk_ab module_2d).
  - reflexivity.
  - reflexivity.
  - reflexivity.
  - reflexivity.
Defined.


